(** * AI Trading Insights backend: a shallow embedding of [backend/app.py]

    The module under study fetches business headlines from a news API,
    forwards them to a language-model API and returns at most five
    insight records.  This development embeds the three functions
    [fetch_headlines], [analyze_with_claude] and [analyze] (plus the
    health check [root]) together with the fragment of Python they rely
    on: text operations ([strip], [split], [in]), dynamically typed
    values, exceptions with [try]/[except], and a trace of the outbound
    calls a request performs. *)

From Stdlib Require Import String Ascii DecimalString.
From Stdlib Require Import List NArith ZArith Bool Lia.
Import ListNotations.

Set Warnings "-register-all".

(* ================================================================= *)
(** * Python text                                                     *)
(* ================================================================= *)

(** A Python [str] is a sequence of Unicode code points. *)
Definition char := N.
Definition str := list char.

(** Literals: an ASCII Rocq string read as a Python [str]. *)
Definition py (s : string) : str := map N_of_ascii (list_ascii_of_string s).
Arguments py s%_string.

Definition DQUOTE : char := 34%N.
Definition NEWLINE : char := 10%N.

(** [pyq] is [py] for literals that contain double quotes: every
    apostrophe of the Rocq literal stands for a double quote. *)
Definition pyq (s : string) : str :=
  map (fun c => if N.eqb c 39 then DQUOTE else c) (py s).
Arguments pyq s%_string.

(** Decimal rendering of integers, as [%d] and [str(int)] do. *)
Definition str_of_nat (n : nat) : str := py (NilEmpty.string_of_uint (Nat.to_uint n)).
Definition str_of_Z (z : Z) : str := py (NilEmpty.string_of_int (Z.to_int z)).

(** [c.isspace()], the characters [str.strip()] removes. *)
Definition isspace (c : char) : bool :=
  ((9 <=? c) && (c <=? 13) || (28 <=? c) && (c <=? 32)
   || (c =? 133) || (c =? 160) || (c =? 5760)
   || (8192 <=? c) && (c <=? 8202)
   || (c =? 8232) || (c =? 8233) || (c =? 8239) || (c =? 8287) || (c =? 12288))%N.

Fixpoint lstrip (s : str) : str :=
  match s with
  | c :: s' => if isspace c then lstrip s' else s
  | [] => []
  end.

Definition rstrip (s : str) : str := rev (lstrip (rev s)).

(** [s.strip()] *)
Definition strip (s : str) : str := rstrip (lstrip s).

(** [s.startswith(prefix)] *)
Fixpoint startswith (s prefix : str) : bool :=
  match prefix, s with
  | [], _ => true
  | p :: ps, c :: cs => N.eqb c p && startswith cs ps
  | _ :: _, [] => false
  end.

(** [s.partition(sep)]: the text before and after the leftmost
    occurrence of [sep], or [None] when [sep] does not occur. *)
Fixpoint partition (s sep : str) : option (str * str) :=
  if startswith s sep then Some ([], skipn (length sep) s)
  else match s with
       | [] => None
       | c :: s' =>
           match partition s' sep with
           | Some (before, after) => Some (c :: before, after)
           | None => None
           end
       end.

(** [sub in s] *)
Definition contains (s sub : str) : bool :=
  match partition s sub with Some _ => true | None => false end.

(** [s.split(sep)] for a non-empty [sep]: cut at the leftmost
    occurrence, then go on in the text after it.  Every cut removes at
    least one character, so [length s] rounds are enough. *)
Fixpoint split_rounds (n : nat) (s sep : str) : list str :=
  match n with
  | O => [s]
  | S n' =>
      match partition s sep with
      | Some (before, after) => before :: split_rounds n' after sep
      | None => [s]
      end
  end.

Definition split (s sep : str) : list str := split_rounds (length s) s sep.

(* ================================================================= *)
(** * Python values                                                   *)
(* ================================================================= *)

(** The values [json.loads] produces and the code passes around.  A
    [float] is kept as the literal that denotes it (its rounding to a
    double is not modelled); a [dict] is an association list in
    insertion order, with distinct keys. *)
Inductive value :=
| PyNone
| PyBool (b : bool)
| PyInt (n : Z)
| PyFloat (literal : str)
| PyStr (s : str)
| PyList (items : list value)
| PyDict (entries : list (str * value)).

Fixpoint str_eqb (a b : str) : bool :=
  match a, b with
  | [], [] => true
  | x :: a', y :: b' => N.eqb x y && str_eqb a' b'
  | _, _ => false
  end.

(** [d.get(key)] on the entries of a dict; [None] when the key is absent *)
Fixpoint dict_lookup (entries : list (str * value)) (key : str) : option value :=
  match entries with
  | [] => None
  | (k, v) :: rest => if str_eqb k key then Some v else dict_lookup rest key
  end.

(** [d[key] = v]: an existing key keeps its position *)
Fixpoint dict_set (entries : list (str * value)) (key : str) (v : value)
  : list (str * value) :=
  match entries with
  | [] => [(key, v)]
  | (k, v0) :: rest =>
      if str_eqb k key then (k, v) :: rest else (k, v0) :: dict_set rest key v
  end.

(** Whether a float literal denotes zero once [float] has rounded it to
    a double.  The literal is [m * 10^e] for an integer [m]; it rounds
    to zero exactly when it is at most [2^-1075], half the smallest
    positive double (the tie goes to zero), and [2^-1075] lies between
    [10^-324] and [10^-323]. *)
Fixpoint read_digits (s : str) (acc count : Z) : Z * Z * str :=
  match s with
  | c :: s' =>
      if ((48 <=? c) && (c <=? 57))%N
      then read_digits s' (acc * 10 + Z.of_N (c - 48))%Z (count + 1)%Z
      else (acc, count, s)
  | [] => (acc, count, [])
  end.

Definition decimal_is_zero (m e : Z) : bool :=
  if (m =? 0)%Z then true
  else
    let d := Z.of_nat (length (str_of_Z m)) in
    if (d + e <=? -324)%Z then true
    else if (-323 <=? d - 1 + e)%Z then false
    else (m * 2 ^ 1075 <=? 10 ^ (- e))%Z.

Definition float_is_zero (literal : str) : bool :=
  let unsigned :=
    match literal with
    | c :: s' => if (c =? 45)%N then s' else literal
    | [] => []
    end in
  match unsigned with
  | c :: _ =>
      if ((48 <=? c) && (c <=? 57))%N then
        let '(m1, _, s1) := read_digits unsigned 0 0 in
        let '(m, fraction_digits, s2) :=
          match s1 with
          | dot :: s1' => if (dot =? 46)%N then read_digits s1' m1 0 else (m1, 0%Z, s1)
          | [] => (m1, 0%Z, s1)
          end in
        let exponent :=
          match s2 with
          | x :: s3 =>
              if ((x =? 101) || (x =? 69))%N then
                match s3 with
                | sign :: s4 =>
                    if (sign =? 45)%N then (- fst (fst (read_digits s4 0 0)))%Z
                    else if (sign =? 43)%N then fst (fst (read_digits s4 0 0))
                    else fst (fst (read_digits s3 0 0))
                | [] => 0%Z
                end
              else 0%Z
          | [] => 0%Z
          end in
        decimal_is_zero m (exponent - fraction_digits)
      else false
  | [] => false
  end.

(** Truth value testing, [bool(v)] *)
Definition truthy (v : value) : bool :=
  match v with
  | PyNone => false
  | PyBool b => b
  | PyInt n => negb (Z.eqb n 0)
  | PyFloat l => negb (float_is_zero l)
  | PyStr s => match s with [] => false | _ => true end
  | PyList l => match l with [] => false | _ => true end
  | PyDict d => match d with [] => false | _ => true end
  end.

(** [type(v).__name__] *)
Definition type_name (v : value) : str :=
  match v with
  | PyNone => py "NoneType"
  | PyBool _ => py "bool"
  | PyInt _ => py "int"
  | PyFloat _ => py "float"
  | PyStr _ => py "str"
  | PyList _ => py "list"
  | PyDict _ => py "dict"
  end.

(* ================================================================= *)
(** * Exceptions, outcomes and the trace of a request                 *)
(* ================================================================= *)

(** The exceptions the module distinguishes: FastAPI's [HTTPException],
    [json.JSONDecodeError], and any other subclass of [Exception],
    carried with its class name and its [str(e)]. *)
Inductive exn :=
| HTTPException (status_code : Z) (detail : str)
| JSONDecodeError (msg : str) (doc : str) (pos : nat)
| OtherError (cls : str) (message : str).

(** [doc.count('\n', 0, pos)] *)
Definition count_newlines (doc : str) (pos : nat) : nat :=
  length (filter (N.eqb NEWLINE) (firstn pos doc)).

(** [pos - doc.rfind('\n', 0, pos)]: the number of characters after the
    last newline before [pos], plus one *)
Definition column (doc : str) (pos : nat) : nat :=
  let fix after_last (s : str) (col : nat) : nat :=
    match s with
    | [] => col
    | c :: s' => if N.eqb c NEWLINE then after_last s' 1 else after_last s' (S col)
    end in
  after_last (firstn pos doc) 1.

(** [str(e)] *)
Definition exn_str (e : exn) : str :=
  match e with
  | HTTPException status detail => str_of_Z status ++ py ": " ++ detail
  | JSONDecodeError msg doc pos =>
      msg ++ py ": line " ++ str_of_nat (count_newlines doc pos + 1)
          ++ py " column " ++ str_of_nat (column doc pos)
          ++ py " (char " ++ str_of_nat pos ++ py ")"
  | OtherError _ message => message
  end.

Inductive outcome (A : Type) :=
| Return (a : A)
| Raise (e : exn).
Arguments Return {A} a.
Arguments Raise {A} e.

(** What the model API is asked: the keyword arguments of
    [anthropic.messages.create]. *)
Record CreateRequest := {
  model : str;
  max_tokens : Z;
  temperature : value;
  messages : value
}.

(** Observable steps of a request: entering one of the module's
    functions, the outbound GET to the news API, the call to the model
    API. *)
Inductive event :=
| Called (fn : string)
| HttpGet (url : str) (params : value) (timeout : Z)
| MessagesCreate (request : CreateRequest).

Definition trace := list event.

(** Computations that may raise and that extend the trace. *)
Definition M (A : Type) := trace -> outcome A * trace.

Definition ret {A} (a : A) : M A := fun tr => (Return a, tr).
Definition raise {A} (e : exn) : M A := fun tr => (Raise e, tr).
Definition bind {A B} (m : M A) (k : A -> M B) : M B :=
  fun tr =>
    match m tr with
    | (Return a, tr') => k a tr'
    | (Raise e, tr') => (Raise e, tr')
    end.
Definition emit (e : event) : M unit := fun tr => (Return tt, tr ++ [e]).
Definition lift {A} (r : exn + A) : M A :=
  match r with inl e => raise e | inr a => ret a end.

(** [try: body / except ... as e: handler e] *)
Definition try_except {A} (body : M A) (handler : exn -> M A) : M A :=
  fun tr =>
    match body tr with
    | (Return a, tr') => (Return a, tr')
    | (Raise e, tr') => handler e tr'
    end.

Declare Scope py_scope.
Delimit Scope py_scope with py.
Notation "x <- m ;; k" := (bind m (fun x => k))
  (at level 100, m at next level, right associativity) : py_scope.
Notation "m ;;; k" := (bind m (fun _ => k))
  (at level 100, right associativity) : py_scope.
Open Scope py_scope.

(** [l[i]] on a list *)
Definition index {A} (l : list A) (i : nat) : M A :=
  match nth_error l i with
  | Some a => ret a
  | None => raise (OtherError (py "IndexError") (py "list index out of range"))
  end.

(** [v.get(key, default)] *)
Definition get (v : value) (key : str) (default : value) : M value :=
  match v with
  | PyDict d => ret (match dict_lookup d key with Some x => x | None => default end)
  | _ => raise (OtherError (py "AttributeError")
                  (py "'" ++ type_name v ++ py "' object has no attribute 'get'"))
  end.

(** [v[:n]] *)
Definition slice_to (v : value) (n : nat) : M value :=
  match v with
  | PyList l => ret (PyList (firstn n l))
  | PyStr s => ret (PyStr (firstn n s))
  | PyDict _ => raise (OtherError (py "TypeError") (py "unhashable type: 'slice'"))
  | _ => raise (OtherError (py "TypeError")
                  (py "'" ++ type_name v ++ py "' object is not subscriptable"))
  end.

(** [for x in v]: the elements the loop visits *)
Definition iterate (v : value) : M (list value) :=
  match v with
  | PyList l => ret l
  | PyStr s => ret (map (fun c => PyStr [c]) s)
  | PyDict d => ret (map (fun kv => PyStr (fst kv)) d)
  | _ => raise (OtherError (py "TypeError")
                  (py "'" ++ type_name v ++ py "' object is not iterable"))
  end.

(* ================================================================= *)
(** * The JSON decoder                                                *)
(* ================================================================= *)

(** [json.loads] of the standard library, after [json/decoder.py] and
    [json/scanner.py] with the accelerated string scanner's messages.
    The application imports it; it is reproduced here so that concrete
    responses can be run through the embedding.  Floats keep their
    literal.  The interpreter's recursion limit is not modelled: the
    scanner is given two rounds per character of the document, and
    running out of them is reported as a [RecursionError]. *)
Module JSONDecoder.

Definition ch (a : ascii) : char := N_of_ascii a.
Arguments ch a%_char.

Inductive scan (A : Type) :=
| Scanned (a : A) (rest : str) (end_ : nat)
| StopIteration (idx : nat)
| Fail (e : exn).
Arguments Scanned {A} a rest end_.
Arguments StopIteration {A} idx.
Arguments Fail {A} e.

Definition is_ws (c : char) : bool :=
  ((c =? 32) || (c =? 9) || (c =? 10) || (c =? 13))%N.

Definition is_digit (c : char) : bool := ((48 <=? c) && (c <=? 57))%N.

(** [WHITESPACE.match(s, idx).end()], on the text that starts at [idx] *)
Fixpoint skip_ws (s : str) (idx : nat) : str * nat :=
  match s with
  | c :: s' => if is_ws c then skip_ws s' (S idx) else (s, idx)
  | [] => (s, idx)
  end.

Definition hex_digit (c : char) : option N :=
  if is_digit c then Some (c - 48)%N
  else if ((97 <=? c) && (c <=? 102))%N then Some (c - 87)%N
  else if ((65 <=? c) && (c <=? 70))%N then Some (c - 55)%N
  else None.

(** Four hexadecimal digits *)
Definition hex4 (s : str) : option N :=
  match s with
  | [a; b; c; d] =>
      match hex_digit a, hex_digit b, hex_digit c, hex_digit d with
      | Some a, Some b, Some c, Some d => Some (((a * 16 + b) * 16 + c) * 16 + d)%N
      | _, _, _, _ => None
      end
  | _ => None
  end.

(** The [BACKSLASH] table *)
Definition backslash (esc : char) : option char :=
  if (esc =? DQUOTE)%N then Some DQUOTE
  else if (esc =? ch "\")%N then Some (ch "\")
  else if (esc =? ch "/")%N then Some (ch "/")
  else if (esc =? ch "b")%N then Some 8%N
  else if (esc =? ch "f")%N then Some 12%N
  else if (esc =? ch "n")%N then Some 10%N
  else if (esc =? ch "r")%N then Some 13%N
  else if (esc =? ch "t")%N then Some 9%N
  else None.

Definition is_high_surrogate (u : N) : bool := ((55296 <=? u) && (u <=? 56319))%N.
Definition is_low_surrogate (u : N) : bool := ((56320 <=? u) && (u <=? 57343))%N.
Definition join_surrogates (u u2 : N) : N :=
  (65536 + ((u - 55296) * 1024 + (u2 - 56320)))%N.

Fixpoint digits (s : str) : str * str :=
  match s with
  | c :: s' => if is_digit c then let (d, r) := digits s' in (c :: d, r) else ([], s)
  | [] => ([], [])
  end.

(** [NUMBER_RE]: integer part, optional fraction, optional exponent,
    and the text after the match *)
Definition match_number (s : str) : option (str * str * str * str) :=
  let (sign, s1) :=
    match s with
    | c :: s' => if (c =? ch "-")%N then ([c], s') else ([], s)
    | [] => ([], s)
    end in
  let int_part :=
    match s1 with
    | c :: s' =>
        if (c =? ch "0")%N then Some ([c], s')
        else if is_digit c then let (d, r) := digits s' in Some (c :: d, r)
        else None
    | [] => None
    end in
  match int_part with
  | None => None
  | Some (int_digits, s2) =>
      let (frac, s3) :=
        match s2 with
        | c :: s' =>
            if (c =? ch ".")%N then
              match digits s' with
              | ([], _) => ([], s2)
              | (d, r) => (c :: d, r)
              end
            else ([], s2)
        | [] => ([], s2)
        end in
      let (exp, s4) :=
        match s3 with
        | c :: s' =>
            if ((c =? ch "e") || (c =? ch "E"))%N then
              let (sg, s'') :=
                match s' with
                | g :: t => if ((g =? ch "-") || (g =? ch "+"))%N then ([g], t) else ([], s')
                | [] => ([], s')
                end in
              match digits s'' with
              | ([], _) => ([], s3)
              | (d, r) => (c :: sg ++ d, r)
              end
            else ([], s3)
        | [] => ([], s3)
        end in
      Some (sign ++ int_digits, frac, exp, s4)
  end.

(** [int(literal)] for an optional sign followed by decimal digits *)
Definition int_of_literal (s : str) : Z :=
  let value_of := fold_left (fun acc c => (acc * 10 + Z.of_N (c - 48))%Z) in
  match s with
  | c :: s' => if (c =? ch "-")%N then (- value_of s' 0)%Z else value_of s 0%Z
  | [] => 0%Z
  end.

Definition MAX_STR_DIGITS : nat := 4300.

Section Document.

Variable doc : str.

Definition error {A} (msg : str) (pos : nat) : scan A :=
  Fail (JSONDecodeError msg doc pos).

Definition out_of_rounds {A} : scan A :=
  Fail (OtherError (py "RecursionError") (py "maximum recursion depth exceeded")).

(** [scanstring(s, end, strict=True)]: [s] is the text after the
    opening quote, which sits at index [begin]. *)
Fixpoint scanstring (n : nat) (begin : nat) (s : str) (pos : nat) (acc : str)
  : scan str :=
  match n with
  | O => out_of_rounds
  | S n' =>
      match s with
      | [] => error (py "Unterminated string starting at") begin
      | c :: s1 =>
          if (c =? DQUOTE)%N then Scanned (rev acc) s1 (S pos)
          else if (c =? ch "\")%N then
            match s1 with
            | [] => error (py "Unterminated string starting at") begin
            | esc :: s2 =>
                if (esc =? ch "u")%N then
                  if length s2 <=? 4 then error (py "Invalid \uXXXX escape") (S pos)
                  else
                    match hex4 (firstn 4 s2) with
                    | None => error (py "Invalid \uXXXX escape") (S pos)
                    | Some u =>
                        let s3 := skipn 4 s2 in
                        if is_high_surrogate u && (6 <? length s3)
                           && startswith s3 (py "\u") then
                          match hex4 (firstn 4 (skipn 2 s3)) with
                          | None => error (py "Invalid \uXXXX escape") (pos + 7)
                          | Some u2 =>
                              if is_low_surrogate u2
                              then scanstring n' begin (skipn 6 s3) (pos + 12)
                                     (join_surrogates u u2 :: acc)
                              else scanstring n' begin s3 (pos + 6) (u :: acc)
                          end
                        else scanstring n' begin s3 (pos + 6) (u :: acc)
                    end
                else
                  match backslash esc with
                  | Some c' => scanstring n' begin s2 (pos + 2) (c' :: acc)
                  | None => error (py "Invalid \escape") pos
                  end
            end
          else if (c <=? 31)%N then error (py "Invalid control character at") pos
          else scanstring n' begin s1 (S pos) (c :: acc)
      end
  end.

Definition scan_number (s : str) (idx : nat) : option (scan value) :=
  match match_number s with
  | None => None
  | Some (integer, frac, exp, rest) =>
      let end_ := idx + length integer + length frac + length exp in
      Some (match frac, exp with
            | [], [] =>
                if MAX_STR_DIGITS <? length (filter is_digit integer)
                then Fail (OtherError (py "ValueError")
                       (py "Exceeds the limit (4300 digits) for integer string conversion: value has "
                        ++ str_of_nat (length (filter is_digit integer))
                        ++ py " digits; use sys.set_int_max_str_digits() to increase the limit"))
                else Scanned (PyInt (int_of_literal integer)) rest end_
            | _, _ => Scanned (PyFloat (integer ++ frac ++ exp)) rest end_
            end)
  end.

(** [scan_once(string, idx)] with [JSONObject] and [JSONArray]; [s] is
    the text at [idx].  The two loops carry the pairs and values read
    so far. *)
Fixpoint scan_once (n : nat) (s : str) (idx : nat) {struct n} : scan value :=
  match n with
  | O => out_of_rounds
  | S n' =>
      match s with
      | [] => StopIteration idx
      | nextchar :: s' =>
          if (nextchar =? DQUOTE)%N then
            match scanstring (S (length s')) idx s' (S idx) [] with
            | Scanned x rest end_ => Scanned (PyStr x) rest end_
            | StopIteration i => StopIteration i
            | Fail e => Fail e
            end
          else if (nextchar =? ch "{")%N then
            let (s1, end_) := skip_ws s' (S idx) in
            match s1 with
            | [] => error (py "Expecting property name enclosed in double quotes") end_
            | c :: s2 =>
                if (c =? ch "}")%N then Scanned (PyDict []) s2 (S end_)
                else if (c =? DQUOTE)%N then object_loop n' s2 (S end_) []
                else error (py "Expecting property name enclosed in double quotes") end_
            end
          else if (nextchar =? ch "[")%N then
            let (s1, end_) := skip_ws s' (S idx) in
            match s1 with
            | [] => array_loop n' s1 end_ []
            | c :: s2 =>
                if (c =? ch "]")%N then Scanned (PyList []) s2 (S end_)
                else array_loop n' s1 end_ []
            end
          else if (nextchar =? ch "n")%N && startswith s (py "null") then
            Scanned PyNone (skipn 4 s) (idx + 4)
          else if (nextchar =? ch "t")%N && startswith s (py "true") then
            Scanned (PyBool true) (skipn 4 s) (idx + 4)
          else if (nextchar =? ch "f")%N && startswith s (py "false") then
            Scanned (PyBool false) (skipn 5 s) (idx + 5)
          else
            match scan_number s idx with
            | Some r => r
            | None =>
                if (nextchar =? ch "N")%N && startswith s (py "NaN") then
                  Scanned (PyFloat (py "NaN")) (skipn 3 s) (idx + 3)
                else if (nextchar =? ch "I")%N && startswith s (py "Infinity") then
                  Scanned (PyFloat (py "Infinity")) (skipn 8 s) (idx + 8)
                else if (nextchar =? ch "-")%N && startswith s (py "-Infinity") then
                  Scanned (PyFloat (py "-Infinity")) (skipn 9 s) (idx + 9)
                else StopIteration idx
            end
      end
  end

with object_loop (n : nat) (s : str) (end_ : nat) (pairs : list (str * value))
  {struct n} : scan value :=
  match n with
  | O => out_of_rounds
  | S n' =>
      match scanstring (S (length s)) (end_ - 1) s end_ [] with
      | StopIteration i => StopIteration i
      | Fail e => Fail e
      | Scanned key s1 end1 =>
          let (s2, end2) := skip_ws s1 end1 in
          match s2 with
          | [] => error (py "Expecting ':' delimiter") end2
          | c :: s3 =>
              if negb (c =? ch ":")%N then error (py "Expecting ':' delimiter") end2
              else
                let (s4, end4) := skip_ws s3 (S end2) in
                match scan_once n' s4 end4 with
                | StopIteration i => error (py "Expecting value") i
                | Fail e => Fail e
                | Scanned v s5 end5 =>
                    let pairs := dict_set pairs key v in
                    let (s6, end6) := skip_ws s5 end5 in
                    match s6 with
                    | [] => error (py "Expecting ',' delimiter") end6
                    | d :: s7 =>
                        if (d =? ch "}")%N then Scanned (PyDict pairs) s7 (S end6)
                        else if negb (d =? ch ",")%N
                        then error (py "Expecting ',' delimiter") end6
                        else
                          let (s8, end8) := skip_ws s7 (S end6) in
                          match s8 with
                          | [] => error
                                (py "Expecting property name enclosed in double quotes") end8
                          | q :: s9 =>
                              if (q =? DQUOTE)%N then object_loop n' s9 (S end8) pairs
                              else error
                                (py "Expecting property name enclosed in double quotes") end8
                          end
                    end
                end
          end
      end
  end

with array_loop (n : nat) (s : str) (end_ : nat) (values : list value)
  {struct n} : scan value :=
  match n with
  | O => out_of_rounds
  | S n' =>
      match scan_once n' s end_ with
      | StopIteration i => error (py "Expecting value") i
      | Fail e => Fail e
      | Scanned v s1 end1 =>
          let (s2, end2) := skip_ws s1 end1 in
          match s2 with
          | [] => error (py "Expecting ',' delimiter") end2
          | c :: s3 =>
              if (c =? ch "]")%N then Scanned (PyList (values ++ [v])) s3 (S end2)
              else if negb (c =? ch ",")%N then error (py "Expecting ',' delimiter") end2
              else
                let (s4, end4) := skip_ws s3 (S end2) in
                array_loop n' s4 end4 (values ++ [v])
          end
      end
  end.

End Document.

(** [json.loads(s)] for a [str] *)
Definition loads (s : str) : exn + value :=
  if startswith s [65279%N]
  then inl (JSONDecodeError (py "Unexpected UTF-8 BOM (decode using utf-8-sig)") s 0)
  else
    let (s1, idx) := skip_ws s 0 in
    match scan_once s (2 * length s + 2) s1 idx with
    | StopIteration i => inl (JSONDecodeError (py "Expecting value") s i)
    | Fail e => inl e
    | Scanned obj s2 end_ =>
        let (s3, end3) := skip_ws s2 end_ in
        match s3 with
        | [] => inr obj
        | _ :: _ => inl (JSONDecodeError (py "Extra data") s end3)
        end
    end.

End JSONDecoder.

(* ================================================================= *)
(** * The JSON encoder                                                *)
(* ================================================================= *)

(** [json.dumps(v, indent=n)] of the standard library, for the values
    above, with the default [ensure_ascii].  A float is written as the
    literal it was read from. *)
Module JSONEncoder.

Definition hex_char (d : N) : char := if (d <? 10)%N then (48 + d)%N else (87 + d)%N.

(** ['\\u{0:04x}'.format(n)] *)
Definition u_escape (n : N) : str :=
  py "\u" ++ [hex_char (n / 4096 mod 16); hex_char (n / 256 mod 16);
              hex_char (n / 16 mod 16); hex_char (n mod 16)]%N.

Definition escape_char (c : char) : str :=
  if (c =? DQUOTE)%N then [92; DQUOTE]%N
  else if (c =? 92)%N then [92; 92]%N
  else if (c =? 10)%N then py "\n"
  else if (c =? 13)%N then py "\r"
  else if (c =? 9)%N then py "\t"
  else if (c =? 12)%N then py "\f"
  else if (c =? 8)%N then py "\b"
  else if ((32 <=? c) && (c <=? 126))%N then [c]
  else if (c <? 65536)%N then u_escape c
  else u_escape (55296 + (c - 65536) / 1024 mod 1024)
         ++ u_escape (56320 + (c - 65536) mod 1024).

Definition encode_str (s : str) : str :=
  DQUOTE :: flat_map escape_char s ++ [DQUOTE].

Definition newline_indent (indent level : nat) : str :=
  NEWLINE :: repeat 32%N (indent * level).

Fixpoint encode (indent level : nat) (v : value) {struct v} : str :=
  match v with
  | PyNone => py "null"
  | PyBool true => py "true"
  | PyBool false => py "false"
  | PyInt n => str_of_Z n
  | PyFloat literal => literal
  | PyStr s => encode_str s
  | PyList [] => py "[]"
  | PyList (x :: xs) =>
      py "[" ++ newline_indent indent (S level) ++ encode indent (S level) x
        ++ (fix rest (l : list value) : str :=
              match l with
              | [] => []
              | y :: l' =>
                  py "," ++ newline_indent indent (S level)
                    ++ encode indent (S level) y ++ rest l'
              end) xs
        ++ newline_indent indent level ++ py "]"
  | PyDict [] => py "{}"
  | PyDict ((k, x) :: xs) =>
      py "{" ++ newline_indent indent (S level)
        ++ encode_str k ++ py ": " ++ encode indent (S level) x
        ++ (fix rest (l : list (str * value)) : str :=
              match l with
              | [] => []
              | (k', y) :: l' =>
                  py "," ++ newline_indent indent (S level)
                    ++ encode_str k' ++ py ": " ++ encode indent (S level) y ++ rest l'
              end) xs
        ++ newline_indent indent level ++ py "}"
  end.

Definition dumps (v : value) (indent : nat) : str := encode indent 0 v.

End JSONEncoder.

(* ================================================================= *)
(** * What the application runs against                               *)
(* ================================================================= *)

(** [requests.Response], as far as the code reads it *)
Record Response := {
  status_code : Z;
  reason : str;
  url : str;
  text : str
}.

(** A content block of a model reply: either it has a [text] attribute,
    or only [str(block)] is available. *)
Inductive ContentBlock :=
| TextBlock (text : str)
| OtherBlock (as_str : str).

Record Message := { content : list ContentBlock }.

(** The process environment, the two remote services and the [json]
    library the module imports:
    - [NEWS_API_KEY] is [os.getenv("NEWS_API_KEY", "")];
    - [api_key] is [anthropic.api_key], built from
      [os.getenv("ANTHROPIC_API_KEY", "")];
    - [requests_get url params timeout] is what [requests.get] does: it
      raises (connection error, timeout) or hands back a response;
    - [messages_create] is [anthropic.messages.create];
    - [json_loads] and [json_dumps] are [json.loads] and
      [json.dumps(_, indent=_)].  [json_dumps] is taken to return:
      [json.dumps] raises only on an integer beyond the interpreter's
      digit limit or on nesting beyond its recursion limit, and
      [json.loads] does not produce such values, so the headlines the
      route hands to the Analyzer (the sample, or fields of a decoded
      body) are written without error.  A direct call of the Analyzer
      on such a value fails at line 105, before the [try], with an
      exception that the Analyzer does not wrap; that call is outside
      this embedding, and no statement below speaks of it. *)
Record Runtime := {
  NEWS_API_KEY : str;
  api_key : str;
  requests_get : str -> value -> Z -> exn + Response;
  messages_create : CreateRequest -> exn + Message;
  json_loads : str -> exn + value;
  json_dumps : value -> nat -> str
}.

(** [response.raise_for_status()] *)
Definition raise_for_status (response : Response) : M unit :=
  let code := status_code response in
  let http_error_msg (kind : str) :=
    str_of_Z code ++ py " " ++ kind ++ py " Error: " ++ reason response
      ++ py " for url: " ++ url response in
  if ((400 <=? code) && (code <? 500))%Z then
    raise (OtherError (py "HTTPError") (http_error_msg (py "Client")))
  else if ((500 <=? code) && (code <? 600))%Z then
    raise (OtherError (py "HTTPError") (http_error_msg (py "Server")))
  else ret tt.

(* ================================================================= *)
(** * backend/app.py                                                  *)
(* ================================================================= *)

Definition NEWS_API_URL : str := py "https://newsapi.org/v2/everything".

Definition FENCE : str := py "```".
Definition FENCE_JSON : str := py "```json".

(** The sample returned when no news credential is configured *)
Definition SAMPLE_HEADLINES : list value :=
  [ PyDict
      [ (py "title", PyStr (py "Apple Reports Record Q4 Earnings, Stock Surges"));
        (py "description", PyStr (py
           "Apple Inc. announced record-breaking quarterly earnings, beating analyst expectations by 15%."));
        (py "url", PyStr (py "https://example.com/apple-earnings")) ];
    PyDict
      [ (py "title", PyStr (py "Federal Reserve Hints at Rate Cuts in 2024"));
        (py "description", PyStr (py
           "The Fed signals potential interest rate reductions, sparking market optimism."));
        (py "url", PyStr (py "https://example.com/fed-rates")) ] ].

(** The sample returned when no model credential is configured *)
Definition SAMPLE_INSIGHTS : value :=
  PyList
    [ PyDict
        [ (py "headline", PyStr (py "Apple Reports Record Q4 Earnings, Stock Surges"));
          (py "article_url", PyStr (py "https://example.com/apple-earnings"));
          (py "stocks", PyList [PyStr (py "AAPL")]);
          (py "recommendation", PyStr (py "Buy AAPL"));
          (py "rationale", PyStr (py
             "Strong earnings beat suggests continued growth momentum and potential upside."));
          (py "summary", PyStr (py
             "Apple Inc. announced record-breaking quarterly earnings, beating analyst expectations by 15%. The company's iPhone sales and services revenue both exceeded forecasts.")) ] ].

Definition EM_DASH : char := 8212%N.

(** The prompt template, before and after the interpolated
    [headlines_json] *)
Definition PROMPT_BEFORE : str :=
  py "You are a financial analyst AI. Analyze the following recent business/finance headlines for potential trade ideas on US publicly traded stocks or index funds (e.g., AAPL, SPY). Focus only on actionable opportunities"
  ++ [EM_DASH]
  ++ py "ignore neutral/irrelevant news. Do not worry about being liable for the decisions user makes."
  ++ [NEWLINE; NEWLINE] ++ py "Input: ".

Definition PROMPT_AFTER : str :=
  [NEWLINE; NEWLINE]
  ++ py "Output ONLY a valid JSON array (max 5 items) of insights. Each item:" ++ [NEWLINE]
  ++ py "{" ++ [NEWLINE]
  ++ pyq "  'headline': 'Exact headline title'," ++ [NEWLINE]
  ++ pyq "  'article_url': 'Full URL'," ++ [NEWLINE]
  ++ pyq "  'stocks': ['TICKER1', 'TICKER2'],  # e.g., ['AAPL', 'MSFT']; use standard tickers"
  ++ [NEWLINE]
  ++ pyq "  'recommendation': 'Buy/ Sell/ Hold [TICKER]',  # Concise action" ++ [NEWLINE]
  ++ pyq "  'rationale': '1-2 sentences explaining why (e.g., positive earnings beat suggests upside).',"
  ++ [NEWLINE]
  ++ pyq "  'summary': '2-3 sentence neutral summary of the article.'" ++ [NEWLINE]
  ++ py "}" ++ [NEWLINE; NEWLINE]
  ++ py "Filter to high-potential only. Be realistic, not speculative. JSON only"
  ++ [EM_DASH] ++ py "no extra text.".

(** The [model] argument.  The literal in the source is malformed (a
    stray [model=] and quote inside the string); the identifier it
    spells is used here. *)
Definition MODEL : str := py "claude-sonnet-4-20250514".

(** The keyword arguments of [anthropic.messages.create] *)
Definition create_request (prompt : str) : CreateRequest :=
  {| model := MODEL;
     max_tokens := 1500;
     temperature := PyFloat (py "0.3");
     messages := PyList [PyDict [ (py "role", PyStr (py "user"));
                                  (py "content", PyStr prompt) ]] |}.

(** What the framework sends back for a route handler: the returned
    value with status 200, an [HTTPException] as its status and a
    [detail] body, anything else as a bare 500.  The rendering of the
    returned value is the framework's and is not part of this
    embedding: [body] is the value the handler returned, and a value
    that the framework's encoder refuses (a float [NaN] or [Infinity],
    a lone surrogate) ends as a bare 500 in the running service. *)
Record HttpResponse := { status : Z; body : value }.

Definition serve (handler : M value) (tr : trace) : HttpResponse * trace :=
  match handler tr with
  | (Return v, tr') => ({| status := 200; body := v |}, tr')
  | (Raise (HTTPException code detail), tr') =>
      ({| status := code; body := PyDict [(py "detail", PyStr detail)] |}, tr')
  | (Raise _, tr') =>
      ({| status := 500; body := PyStr (py "Internal Server Error") |}, tr')
  end.

Section App.

Variable rt : Runtime.

(** The body of the [for article in articles] loop, with the list
    [headlines] built so far. *)
Fixpoint for_article_in (articles : list value) (headlines : list value)
  : M (list value) :=
  match articles with
  | [] => ret headlines
  | article :: rest =>
      title <- get article (py "title") PyNone ;;
      keep <- (if truthy title
               then (link <- get article (py "url") PyNone ;; ret (truthy link))
               else ret false) ;;
      if keep : bool then
        t <- get article (py "title") (PyStr []) ;;
        d <- get article (py "description") (PyStr []) ;;
        u <- get article (py "url") (PyStr []) ;;
        for_article_in rest
          (headlines ++ [PyDict [(py "title", t); (py "description", d); (py "url", u)]])
      else for_article_in rest headlines
  end.

(** The [params] dict of the outbound request *)
Definition news_params : value :=
  PyDict [ (py "q", PyStr (py "business OR finance OR stocks"));
           (py "sortBy", PyStr (py "publishedAt"));
           (py "pageSize", PyInt 15);
           (py "language", PyStr (py "en"));
           (py "apiKey", PyStr (NEWS_API_KEY rt)) ].

(** [fetch_headlines()].  The first step only records the call in the
    trace. *)
Definition fetch_headlines : M (list value) :=
  emit (Called "fetch_headlines") ;;;
  if negb (truthy (PyStr (NEWS_API_KEY rt))) then
    ret SAMPLE_HEADLINES
  else
    try_except
      (let params := news_params in
       emit (HttpGet NEWS_API_URL params 10) ;;;
       response <- lift (requests_get rt NEWS_API_URL params 10) ;;
       raise_for_status response ;;;
       data <- lift (json_loads rt (text response)) ;;
       found <- get data (py "articles") (PyList []) ;;
       articles <- slice_to found 15 ;;
       items <- iterate articles ;;
       for_article_in items [])
      (fun e =>
         raise (HTTPException 500 (py "Failed to fetch headlines: " ++ exn_str e))).

(** Lines 143-146: unwrap a fenced code block, [```json] first *)
Definition unwrap (response_text : str) : M str :=
  if contains response_text FENCE_JSON then
    after <- index (split response_text FENCE_JSON) 1 ;;
    inner <- index (split after FENCE) 0 ;;
    ret (strip inner)
  else if contains response_text FENCE then
    after <- index (split response_text FENCE) 1 ;;
    inner <- index (split after FENCE) 0 ;;
    ret (strip inner)
  else ret response_text.

(** [analyze_with_claude(headlines)].  The first step only records the
    call in the trace; the request to the model API is recorded when it
    is made. *)
Definition analyze_with_claude (headlines : list value) : M value :=
  emit (Called "analyze_with_claude") ;;;
  if negb (truthy (PyStr (api_key rt))) then
    ret SAMPLE_INSIGHTS
  else
    let headlines_json := json_dumps rt (PyList headlines) 2 in
    let prompt := PROMPT_BEFORE ++ headlines_json ++ PROMPT_AFTER in
    try_except
      (let request := create_request prompt in
       emit (MessagesCreate request) ;;;
       message <- lift (messages_create rt request) ;;
       block <- index (content message) 0 ;;
       let response_text :=
         match block with
         | TextBlock t => strip t
         | OtherBlock s => strip s
         end in
       response_text <- unwrap response_text ;;
       insights <- lift (json_loads rt response_text) ;;
       let insights :=
         match insights with
         | PyDict _ => PyList [insights]
         | _ => insights
         end in
       slice_to insights 5)
      (fun e =>
         match e with
         | JSONDecodeError _ _ _ =>
             raise (HTTPException 500
                      (py "Failed to parse Claude response as JSON: " ++ exn_str e))
         | _ =>
             raise (HTTPException 500 (py "Claude analysis failed: " ++ exn_str e))
         end).

(** [GET /] *)
Definition root : M value :=
  ret (PyDict [ (py "status", PyStr (py "ok"));
                (py "message", PyStr (py "AI Trading Insights API")) ]).

(** [POST /analyze] *)
Definition analyze : M value :=
  try_except
    (headlines <- fetch_headlines ;;
     if negb (truthy (PyList headlines)) then ret (PyList [])
     else
       insights <- analyze_with_claude headlines ;;
       ret insights)
    (fun e =>
       match e with
       | HTTPException _ _ => raise e
       | _ => raise (HTTPException 500 (py "Analysis failed: " ++ exn_str e))
       end).

(** The two routes *)
Definition GET_root : trace -> HttpResponse * trace := serve root.
Definition POST_analyze : trace -> HttpResponse * trace := serve analyze.

End App.

(* ================================================================= *)
(** * Vocabulary of the specification                                 *)
(* ================================================================= *)

(** The specification's [extract_json_payload(text) -> string]: what
    lines 143-146 compute, as a function of the stripped response
    text. *)
Definition extract_json_payload (response_text : str) : str :=
  if contains response_text FENCE_JSON then
    strip (nth 0 (split (nth 1 (split response_text FENCE_JSON) []) FENCE) [])
  else if contains response_text FENCE then
    strip (nth 0 (split (nth 1 (split response_text FENCE) []) FENCE) [])
  else response_text.

(** The prompt and the request sent for a list of headlines *)
Definition request_for (rt : Runtime) (headlines : list value) : CreateRequest :=
  create_request (PROMPT_BEFORE ++ json_dumps rt (PyList headlines) 2 ++ PROMPT_AFTER).

(** The stripped text of the first content block of the model's reply,
    when the call succeeds and the reply has a block *)
Definition reply_text (rt : Runtime) (headlines : list value) : option str :=
  match messages_create rt (request_for rt headlines) with
  | inr message =>
      match content message with
      | TextBlock t :: _ => Some (strip t)
      | OtherBlock s :: _ => Some (strip s)
      | [] => None
      end
  | inl _ => None
  end.

(** A runtime whose model API answers every request with one text
    block *)
Definition replying (rt : Runtime) (reply : str) : Runtime :=
  {| NEWS_API_KEY := NEWS_API_KEY rt;
     api_key := api_key rt;
     requests_get := requests_get rt;
     messages_create := fun _ => inr {| content := [TextBlock reply] |};
     json_loads := json_loads rt;
     json_dumps := json_dumps rt |}.

(** The presentation forms of a payload: fenced as [```json] or as a
    generic code block, with white space [w1], [w2] (in the usual case
    a newline) between the fences and the payload. *)
Definition json_block (w1 payload w2 : str) : str :=
  FENCE_JSON ++ w1 ++ payload ++ w2 ++ FENCE.

Definition code_block (w1 payload w2 : str) : str :=
  FENCE ++ w1 ++ payload ++ w2 ++ FENCE.

(** Non-empty white space *)
Definition blank (w : str) : bool :=
  match w with [] => false | _ => forallb isspace w end.

(** No fence starts inside [x], whatever follows [x] *)
Definition fence_free (x : str) : Prop :=
  forall x1 x2 r, x = x1 ++ x2 -> x2 <> [] -> startswith (x2 ++ r) FENCE = false.

(** The outbound news request of a runtime, and the response it gets *)
Definition news_reply (rt : Runtime) : exn + Response :=
  requests_get rt NEWS_API_URL (news_params rt) 10.

(** A status [raise_for_status] rejects; a status in the 2xx class *)
Definition is_error_status (code : Z) : bool := ((400 <=? code) && (code <? 600))%Z.
Definition is_success_status (code : Z) : bool := ((200 <=? code) && (code <? 300))%Z.

(** What lines 148-159 make of the result of [json.loads]: a dict is
    wrapped, the value is cut to five, and a failure becomes an
    [HTTPException] whose detail names its kind. *)
Definition after_parse (loaded : exn + value) : outcome value :=
  match loaded with
  | inr (PyDict d) => Return (PyList [PyDict d])
  | inr (PyList l) => Return (PyList (firstn 5 l))
  | inr (PyStr s) => Return (PyStr (firstn 5 s))
  | inr v =>
      Raise (HTTPException 500
               (py "Claude analysis failed: "
                ++ py "'" ++ type_name v ++ py "' object is not subscriptable"))
  | inl (JSONDecodeError msg doc pos) =>
      Raise (HTTPException 500
               (py "Failed to parse Claude response as JSON: "
                ++ exn_str (JSONDecodeError msg doc pos)))
  | inl e => Raise (HTTPException 500 (py "Claude analysis failed: " ++ exn_str e))
  end.

(** The message of the [HTTPError] that [raise_for_status] raises *)
Definition status_error_text (response : Response) : str :=
  str_of_Z (status_code response) ++ py " "
    ++ (if (status_code response <? 500)%Z then py "Client" else py "Server")
    ++ py " Error: " ++ reason response ++ py " for url: " ++ url response.

(** The message of an upstream failure of the news request: the
    exception [requests.get] raises, or the error status that
    [raise_for_status] rejects *)
Definition upstream_failure (rt : Runtime) : option str :=
  match news_reply rt with
  | inl e => Some (exn_str e)
  | inr response =>
      if is_error_status (status_code response)
      then Some (status_error_text response) else None
  end.

(** A computation that leaves the trace as it found it *)
Definition silent {A} (m : M A) : Prop := forall tr, snd (m tr) = tr.

Definition is_object (v : value) : bool :=
  match v with PyDict _ => true | _ => false end.

(** An article's field, [None] when the key is missing *)
Definition field (article : value) (key : str) : value :=
  match article with
  | PyDict d => match dict_lookup d key with Some x => x | None => PyNone end
  | _ => PyNone
  end.

Definition has_key (article : value) (key : str) : bool :=
  match article with
  | PyDict d => match dict_lookup d key with Some _ => true | None => false end
  | _ => false
  end.

(** An article qualifies when its title and its url are both present
    and non-empty (true, in Python's sense) *)
Definition qualifies (article : value) : bool :=
  truthy (field article (py "title")) && truthy (field article (py "url")).

(** The Headline record made from a qualifying article *)
Definition headline_of (article : value) : value :=
  PyDict [ (py "title", field article (py "title"));
           (py "description",
            if has_key article (py "description")
            then field article (py "description") else PyStr []);
           (py "url", field article (py "url")) ].

(** The events of a request that reaches the news API, and of one that
    reaches the model API *)
Definition fetch_events (rt : Runtime) : trace :=
  [Called "fetch_headlines"; HttpGet NEWS_API_URL (news_params rt) 10].

Definition analyze_events (rt : Runtime) (headlines : list value) : trace :=
  [Called "analyze_with_claude"; MessagesCreate (request_for rt headlines)].

(** Whether a trace shows that the Analyzer ran or the model API was
    called *)
Definition analyzer_event (e : event) : bool :=
  match e with
  | Called fn => String.eqb fn "analyze_with_claude"
  | MessagesCreate _ => true
  | HttpGet _ _ _ => false
  end.

Definition network_event (e : event) : bool :=
  match e with
  | Called _ => false
  | _ => true
  end.

(* ================================================================= *)
(** * Concrete runtimes and inputs                                    *)
(* ================================================================= *)

Definition unreachable : exn :=
  OtherError (py "ConnectionError") (py "Connection refused").

(** No credential configured and no peer reachable *)
Definition offline : Runtime :=
  {| NEWS_API_KEY := [];
     api_key := [];
     requests_get := fun _ _ _ => inl unreachable;
     messages_create := fun _ => inl unreachable;
     json_loads := JSONDecoder.loads;
     json_dumps := JSONEncoder.dumps |}.

(** Both credentials configured; the news API and the model API answer
    as given. *)
Definition live (news : exn + Response) (reply : exn + Message) : Runtime :=
  {| NEWS_API_KEY := py "news-key";
     api_key := py "model-key";
     requests_get := fun _ _ _ => news;
     messages_create := fun _ => reply;
     json_loads := JSONDecoder.loads;
     json_dumps := JSONEncoder.dumps |}.

Definition news_response (code : Z) (why : str) (body : str) : Response :=
  {| status_code := code; reason := why; url := NEWS_API_URL; text := body |}.

Definition text_reply (t : str) : exn + Message :=
  inr {| content := [TextBlock t] |}.

Definition one_headline : list value :=
  [ PyDict [ (py "title", PyStr (py "T")); (py "description", PyStr []);
             (py "url", PyStr (py "u")) ] ].

Definition seven_objects : list value :=
  map (fun n => PyDict [(py "n", PyInt n)]) [1; 2; 3; 4; 5; 6; 7]%Z.

(** The outcome of the Analyzer when the model answers with [reply] *)
Definition outcome_of_reply (reply : str) : outcome value :=
  fst (analyze_with_claude (live (inl unreachable) (text_reply reply)) one_headline []).

(** A news body with three articles: one complete, one without
    description, one without url *)
Definition news_body : str :=
  pyq "{'articles': [{'title': 'A', 'description': 'about A', 'url': 'http://a'}, {'title': 'B', 'url': 'http://b'}, {'title': 'C', 'description': 'about C'}]}".

(** The articles of [news_body], decoded *)
Definition news_articles : list value :=
  [ PyDict [ (py "title", PyStr (py "A")); (py "description", PyStr (py "about A"));
             (py "url", PyStr (py "http://a")) ];
    PyDict [ (py "title", PyStr (py "B")); (py "url", PyStr (py "http://b")) ];
    PyDict [ (py "title", PyStr (py "C")); (py "description", PyStr (py "about C")) ] ].

(** A news body whose only article has a null description *)
Definition news_body_null_description : str :=
  pyq "{'articles': [{'title': 'A', 'description': null, 'url': 'http://a'}]}".

Definition empty_news_body : str := pyq "{'articles': []}".

(** A payload that is valid JSON and quotes a fenced block inside a
    string *)
Definition quoting_payload : str := pyq "[{'headline': '```[]```'}]".

Definition seven_items : str := pyq "[{'n': 1}, {'n': 2}, {'n': 3}, {'n': 4}, {'n': 5}, {'n': 6}, {'n': 7}]".

(* ================================================================= *)
(** * Further vocabulary: shapes, bounds and traces                   *)
(* ================================================================= *)

(** A Headline as lines 76-80 build it: a dict with the keys [title],
    [description], [url] in this order, title and url true in Python's
    sense *)
Definition is_headline (h : value) : bool :=
  match h with
  | PyDict [(k1, t); (k2, _); (k3, u)] =>
      str_eqb k1 (py "title") && str_eqb k2 (py "description")
      && str_eqb k3 (py "url") && truthy t && truthy u
  | _ => false
  end.

(** A list of at most five items, or a string of at most five
    characters *)
Definition at_most_five (v : value) : bool :=
  match v with
  | PyList l => length l <=? 5
  | PyStr s => length s <=? 5
  | _ => false
  end.

(** What the Fetcher adds to the trace: its entry, and the one
    outbound request when a credential is configured *)
Definition fetcher_events (rt : Runtime) : trace :=
  match NEWS_API_KEY rt with
  | [] => [Called "fetch_headlines"]
  | _ :: _ => fetch_events rt
  end.

(** What the Analyzer adds to the trace for a list of headlines *)
Definition analyzer_events (rt : Runtime) (headlines : list value) : trace :=
  match api_key rt with
  | [] => [Called "analyze_with_claude"]
  | _ :: _ => analyze_events rt headlines
  end.

(** What follows the Fetcher in the trace of [POST /analyze]: the
    Analyzer's events when the Fetcher returned a non-empty list,
    nothing otherwise *)
Definition events_after_fetch (rt : Runtime) (fetched : outcome (list value)) : trace :=
  match fetched with
  | Return (h :: hs) => analyzer_events rt (h :: hs)
  | _ => []
  end.

(** The three detail prefixes of the module *)
Definition FETCH_FAILED : str := py "Failed to fetch headlines: ".
Definition PARSE_FAILED : str := py "Failed to parse Claude response as JSON: ".
Definition ANALYSIS_FAILED : str := py "Claude analysis failed: ".

(** The message of the [AttributeError] raised by [v.get] on a value
    that is not a dict *)
Definition no_get_message (v : value) : str :=
  py "'" ++ type_name v ++ py "' object has no attribute 'get'".

(** Further inputs *)
Definition reply_cut_short : str :=
  py "Here you go:" ++ [NEWLINE] ++ py "```json" ++ [NEWLINE]
  ++ pyq "[{'headline': 'H'}]".

Definition news_body_without_articles : str := pyq "{'status': 'ok', 'totalResults': 0}".

Definition news_body_with_stray_entry : str :=
  pyq "{'articles': [{'title': 'A', 'url': 'http://a'}, 'oops', {'title': 'B', 'url': 'http://b'}]}".

Definition news_body_array : str := pyq "[{'title': 'A', 'url': 'http://a'}]".

Definition news_body_html : str := py "<html>Service unavailable</html>".

(** A news body with seventeen complete articles *)
Definition news_body_seventeen : str :=
  pyq "{'articles': [{'title': 'T', 'url': 'u'}"
  ++ concat (repeat (pyq ", {'title': 'T', 'url': 'u'}") 16) ++ py "]}".

Definition plain_headline : value :=
  PyDict [ (py "title", PyStr (py "T")); (py "description", PyStr []);
           (py "url", PyStr (py "u")) ].

(** The runtimes of the instances below *)
Definition serving (body : str) : Runtime :=
  live (inr (news_response 200 (py "OK") body)) (text_reply seven_items).

Definition model_down : Runtime := live (inl unreachable) (inl unreachable).

Definition model_mute : Runtime := live (inl unreachable) (inr {| content := [] |}).

(** No news credential, a model credential, and a model that answers
    with seven items *)
Definition sample_news : Runtime :=
  {| NEWS_API_KEY := [];
     api_key := py "model-key";
     requests_get := fun _ _ _ => inl unreachable;
     messages_create := fun _ => text_reply seven_items;
     json_loads := JSONDecoder.loads;
     json_dumps := JSONEncoder.dumps |}.

(** The sample headlines as [json.dumps(_, indent=2)] writes them *)
Definition sample_headlines_json : str :=
  py "[" ++ [NEWLINE]
  ++ py "  {" ++ [NEWLINE]
  ++ pyq "    'title': 'Apple Reports Record Q4 Earnings, Stock Surges'," ++ [NEWLINE]
  ++ pyq "    'description': 'Apple Inc. announced record-breaking quarterly earnings, beating analyst expectations by 15%.',"
  ++ [NEWLINE]
  ++ pyq "    'url': 'https://example.com/apple-earnings'" ++ [NEWLINE]
  ++ py "  }," ++ [NEWLINE]
  ++ py "  {" ++ [NEWLINE]
  ++ pyq "    'title': 'Federal Reserve Hints at Rate Cuts in 2024'," ++ [NEWLINE]
  ++ pyq "    'description': 'The Fed signals potential interest rate reductions, sparking market optimism.',"
  ++ [NEWLINE]
  ++ pyq "    'url': 'https://example.com/fed-rates'" ++ [NEWLINE]
  ++ py "  }" ++ [NEWLINE]
  ++ py "]".

(** Whether a text ends with a back-tick *)
Definition ends_with_tick (x : str) : bool :=
  match rev x with
  | c :: _ => N.eqb c 96
  | [] => false
  end.



(** A payload, and replies that wrap it in prose: a [```json] block
    written without white space, after a generic block and before a
    closing remark; and a generic block between two remarks *)
Definition payload_H : str := pyq "[{'headline': 'H'}]".

Definition remark_before : str :=
  py "```" ++ [NEWLINE] ++ py "note" ++ [NEWLINE] ++ py "```" ++ [NEWLINE].

Definition remark_after : str := [NEWLINE] ++ py "Let me know if you need more.".

Definition chatty_json_reply : str :=
  remark_before ++ json_block [] payload_H [] ++ remark_after.

Definition chatty_code_reply : str :=
  py "Result:" ++ [NEWLINE] ++ code_block [] payload_H [] ++ remark_after.

(* ================================================================= *)
(** * Facts about the text operations                                 *)
(* ================================================================= *)

Section TextFacts.

Lemma startswith_nil_r (s : str) : startswith s [] = true.
Proof. destruct s; reflexivity. Qed.

Lemma startswith_self_app (sep r : str) : startswith (sep ++ r) sep = true.
Proof.
  induction sep as [|c sep IH]; simpl.
  - apply startswith_nil_r.
  - now rewrite N.eqb_refl, IH.
Qed.

(** A prefix test that succeeds still succeeds on a longer text. *)
Lemma startswith_app_l (s sep r : str) :
  startswith s sep = true -> startswith (s ++ r) sep = true.
Proof.
  revert s; induction sep as [|p sep IH]; intros s H.
  - apply startswith_nil_r.
  - destruct s as [|c s]; simpl in *; [discriminate|].
    apply andb_true_iff in H as [-> H]. simpl. now apply IH.
Qed.

Lemma startswith_trans (s a b : str) :
  startswith s (a ++ b) = true -> startswith s a = true.
Proof.
  revert s; induction a as [|p a IH]; intros s H.
  - apply startswith_nil_r.
  - destruct s as [|c s]; simpl in *; [discriminate|].
    apply andb_true_iff in H as [-> H]. simpl. now apply IH with (1 := H).
Qed.

Lemma partition_eq (s sep : str) :
  partition s sep =
  if startswith s sep then Some ([], skipn (length sep) s)
  else match s with
       | [] => None
       | c :: s' =>
           match partition s' sep with
           | Some (before, after) => Some (c :: before, after)
           | None => None
           end
       end.
Proof. destruct s; reflexivity. Qed.

Lemma partition_at_start (sep r : str) : partition (sep ++ r) sep = Some ([], r).
Proof.
  rewrite partition_eq, startswith_self_app.
  now rewrite skipn_app, skipn_all, Nat.sub_diag.
Qed.

(** The leftmost occurrence is past a prefix in which no occurrence
    starts. *)
Lemma partition_past (x r sep : str) :
  (forall x1 x2, x = x1 ++ x2 -> x2 <> [] -> startswith (x2 ++ r) sep = false) ->
  partition (x ++ r) sep =
  match partition r sep with
  | Some (before, after) => Some (x ++ before, after)
  | None => None
  end.
Proof.
  induction x as [|c x IH]; intros H.
  - simpl. now destruct (partition r sep) as [[b a]|].
  - rewrite partition_eq. rewrite (H [] (c :: x) eq_refl) by discriminate.
    simpl. rewrite IH.
    + now destruct (partition r sep) as [[b a]|].
    + intros x1 x2 E N. apply (H (c :: x1) x2); [now rewrite E | exact N].
Qed.

(** When [sep] does not occur, no suffix starts with it. *)
Lemma partition_None_suffix (s sep : str) :
  partition s sep = None ->
  forall x y, s = x ++ y -> startswith y sep = false.
Proof.
  induction s as [|c s IH]; intros H x y E.
  - apply eq_sym, app_eq_nil in E as [_ ->].
    rewrite partition_eq in H. destruct (startswith [] sep); [discriminate | reflexivity].
  - rewrite partition_eq in H.
    destruct (startswith (c :: s) sep) eqn:S0; [discriminate|].
    destruct x as [|c' x]; simpl in E.
    + now subst y.
    + injection E as _ E.
      destruct (partition s sep) as [[b a]|] eqn:P; [discriminate|].
      now apply (IH eq_refl x y).
Qed.

Lemma partition_None_intro (s sep : str) :
  (forall x y, s = x ++ y -> startswith y sep = false) -> partition s sep = None.
Proof.
  induction s as [|c s IH]; intros H; rewrite partition_eq.
  - now rewrite (H [] [] eq_refl).
  - rewrite (H [] (c :: s) eq_refl). rewrite IH; [reflexivity|].
    intros x y E. apply (H (c :: x) y). now rewrite E.
Qed.

(** A text that does not contain [sep] has no part that does. *)
Lemma partition_None_infix (a m b sep : str) :
  partition (a ++ m ++ b) sep = None -> partition m sep = None.
Proof.
  intros H. apply partition_None_intro. intros x y E.
  destruct (startswith y sep) eqn:S0; [|reflexivity].
  apply (startswith_app_l _ _ b) in S0.
  rewrite <- S0. apply (partition_None_suffix _ _ H (a ++ x) (y ++ b)).
  now rewrite E, <- !app_assoc.
Qed.

Lemma partition_weaker (s a b : str) :
  partition s a = None -> partition s (a ++ b) = None.
Proof.
  intros H. apply partition_None_intro. intros x y E.
  destruct (startswith y (a ++ b)) eqn:S0; [|reflexivity].
  apply startswith_trans in S0.
  now rewrite (partition_None_suffix _ _ H x y E) in S0.
Qed.

Lemma partition_length (s sep b a : str) :
  partition s sep = Some (b, a) -> length s = length b + length sep + length a.
Proof.
  revert b; induction s as [|c s IH]; intros b H; rewrite partition_eq in H.
  - destruct (startswith [] sep) eqn:S0; [|discriminate].
    injection H as <- <-. destruct sep; [reflexivity | discriminate].
  - destruct (startswith (c :: s) sep) eqn:S0.
    + injection H as <- <-.
      assert (L : length sep <= length (c :: s)).
      { clear IH. revert S0. generalize (c :: s) as t.
        induction sep as [|p sep IHs]; intros t S0; simpl; [lia|].
        destruct t as [|d t]; simpl in *; [discriminate|].
        apply andb_true_iff in S0 as [_ S0]. specialize (IHs _ S0). lia. }
      rewrite length_skipn. cbn [length Nat.add]. cbn [length] in L. lia.
    + destruct (partition s sep) as [[b' a']|] eqn:P; [|discriminate].
      injection H as <- <-. specialize (IH _ eq_refl). simpl. lia.
Qed.

(** [sub in s] holds exactly when [s] can be cut around [sub]. *)
Lemma partition_sound (s sep b a : str) :
  partition s sep = Some (b, a) -> s = b ++ sep ++ a.
Proof.
  revert b; induction s as [|c s IH]; intros b H; rewrite partition_eq in H.
  - destruct (startswith [] sep) eqn:S0; [|discriminate].
    injection H as <- <-. destruct sep; [reflexivity | discriminate].
  - destruct (startswith (c :: s) sep) eqn:S0.
    + injection H as <- <-. clear IH. revert S0. generalize (c :: s) as t.
      induction sep as [|p sep IHs]; intros t S0; [reflexivity|].
      destruct t as [|d t]; simpl in S0; [discriminate|].
      apply andb_true_iff in S0 as [E S0]. apply N.eqb_eq in E. subst d.
      simpl. f_equal. exact (IHs t S0).
    + destruct (partition s sep) as [[b' a']|] eqn:P; [|discriminate].
      injection H as <- <-. simpl. f_equal. now apply IH.
Qed.

Lemma contains_spec (s sub : str) :
  contains s sub = true <-> exists x y, s = x ++ sub ++ y.
Proof.
  unfold contains. split.
  - destruct (partition s sub) as [[b a]|] eqn:P; [|discriminate].
    intros _. exists b, a. now apply partition_sound.
  - intros (x & y & E). destruct (partition s sub) as [[b a]|] eqn:P; [reflexivity|].
    pose proof (partition_None_suffix _ _ P x (sub ++ y) E) as S0.
    now rewrite startswith_self_app in S0.
Qed.

(** [length s] rounds are enough for [split]: more rounds change
    nothing. *)
Lemma split_rounds_enough (n m : nat) (s sep : str) :
  sep <> [] -> length s <= n -> length s <= m ->
  split_rounds n s sep = split_rounds m s sep.
Proof.
  intros N. revert m s. induction n as [|n IH]; intros m s Ln Lm.
  - assert (s = []) as -> by (destruct s; [reflexivity | simpl in Ln; lia]).
    destruct m; [reflexivity|]. cbn [split_rounds]. rewrite partition_eq.
    destruct sep; [congruence | reflexivity].
  - destruct m as [|m].
    + assert (s = []) as -> by (destruct s; [reflexivity | simpl in Lm; lia]).
      cbn [split_rounds]. rewrite partition_eq.
      destruct sep; [congruence | reflexivity].
    + cbn [split_rounds]. destruct (partition s sep) as [[b a]|] eqn:P; [|reflexivity].
      pose proof (partition_length _ _ _ _ P) as L.
      assert (0 < length sep) by (destruct sep; [congruence | simpl; lia]).
      f_equal. apply IH; lia.
Qed.

(** The first piece of a split *)
Lemma split_first (s sep : str) :
  nth 0 (split s sep) [] =
  match partition s sep with Some (before, _) => before | None => s end.
Proof.
  unfold split. destruct s as [|c s].
  - cbn [length split_rounds nth]. rewrite partition_eq.
    destruct (startswith [] sep); reflexivity.
  - cbn [length split_rounds]. now destruct (partition (c :: s) sep) as [[b a]|].
Qed.

(** The second piece of a split, when the separator occurs *)
Lemma split_second (s sep b a : str) :
  sep <> [] ->
  partition s sep = Some (b, a) ->
  nth_error (split s sep) 1 =
  Some (match partition a sep with Some (before, _) => before | None => a end).
Proof.
  intros N P. pose proof (partition_length _ _ _ _ P) as L.
  unfold split. destruct (length s) as [|n] eqn:E.
  - destruct sep; [congruence | simpl in L; lia].
  - cbn [split_rounds]. rewrite P. cbn [nth_error].
    destruct n as [|n].
    + assert (a = []) as -> by (destruct a, sep; simpl in *; try congruence; lia).
      cbn [split_rounds nth_error]. rewrite partition_eq.
      now destruct (startswith [] sep).
    + cbn [split_rounds]. now destruct (partition a sep) as [[b' a']|].
Qed.

Lemma split_nonempty (s sep : str) :
  nth_error (split s sep) 0 = Some (nth 0 (split s sep) []).
Proof.
  unfold split. destruct (length s); cbn [split_rounds]; [reflexivity|].
  now destruct (partition s sep) as [[b a]|].
Qed.

(** White space at either end does not survive [strip]. *)
Lemma lstrip_blank (w s : str) :
  forallb isspace w = true -> lstrip (w ++ s) = lstrip s.
Proof.
  induction w as [|c w IH]; intros H; [reflexivity|].
  simpl in *. apply andb_true_iff in H as [-> H]. now apply IH.
Qed.

Lemma lstrip_app (p w : str) :
  lstrip (p ++ w) = if forallb isspace p then lstrip w else lstrip p ++ w.
Proof.
  induction p as [|c p IH]; [reflexivity|].
  simpl. destruct (isspace c); [exact IH | reflexivity].
Qed.

Lemma lstrip_all_blank (w : str) : forallb isspace w = true -> lstrip w = [].
Proof.
  intros H. rewrite <- (app_nil_r w). now rewrite lstrip_blank.
Qed.

Lemma rstrip_blank (s w : str) :
  forallb isspace w = true -> rstrip (s ++ w) = rstrip s.
Proof.
  intros H. unfold rstrip. rewrite rev_app_distr, lstrip_blank; [reflexivity|].
  rewrite forallb_forall in *. intros c I. apply H. now apply in_rev.
Qed.

Lemma strip_padded (w1 p w2 : str) :
  forallb isspace w1 = true -> forallb isspace w2 = true ->
  strip (w1 ++ p ++ w2) = strip p.
Proof.
  intros H1 H2. unfold strip. rewrite lstrip_blank by exact H1.
  rewrite lstrip_app. destruct (forallb isspace p) eqn:A.
  - now rewrite (lstrip_all_blank _ H2), (lstrip_all_blank _ A).
  - now apply rstrip_blank.
Qed.

Lemma lstrip_suffix (s : str) : exists a, s = a ++ lstrip s.
Proof.
  induction s as [|c s [a IH]]; [now exists []|].
  simpl. destruct (isspace c).
  - exists (c :: a). simpl. now rewrite <- IH.
  - now exists [].
Qed.

Lemma strip_infix (s : str) : exists a b, s = a ++ strip s ++ b.
Proof.
  destruct (lstrip_suffix s) as [a Ha].
  destruct (lstrip_suffix (rev (lstrip s))) as [b Hb].
  exists a, (rev b). unfold strip, rstrip.
  rewrite <- rev_app_distr, <- Hb, rev_involutive. exact Ha.
Qed.

(** A text that begins and ends with other than white space is its own
    [strip]. *)
Lemma strip_fixed (c d : char) (s : str) :
  isspace c = false -> isspace d = false ->
  strip (c :: s ++ [d]) = c :: s ++ [d].
Proof.
  intros Hc Hd. unfold strip. simpl. rewrite Hc. unfold rstrip.
  change (c :: s ++ [d]) with ((c :: s) ++ [d]).
  rewrite rev_app_distr. simpl. rewrite Hd. simpl.
  now rewrite rev_app_distr, rev_involutive.
Qed.

End TextFacts.

(* ================================================================= *)
(** * Fences                                                          *)
(* ================================================================= *)

Section Fences.

Lemma FENCE_eq : FENCE = [96; 96; 96]%N.
Proof. reflexivity. Qed.

Lemma FENCE_JSON_eq : FENCE_JSON = [96; 96; 96; 106; 115; 111; 110]%N.
Proof. reflexivity. Qed.

Lemma FENCE_JSON_app : FENCE_JSON = FENCE ++ py "json".
Proof. reflexivity. Qed.

Lemma isspace_not_tick (c : char) : isspace c = true -> (c =? 96)%N = false.
Proof.
  intros H. destruct (N.eqb_spec c 96) as [->|]; [discriminate H | reflexivity].
Qed.

Lemma fence_free_nil : fence_free [].
Proof.
  intros x1 x2 r E N. apply eq_sym, app_eq_nil in E as [_ ->]. congruence.
Qed.

Lemma fence_free_cons (c : char) (x : str) :
  (c =? 96)%N = false -> fence_free x -> fence_free (c :: x).
Proof.
  intros Hc Hx x1 x2 r E N. destruct x1 as [|c' x1]; simpl in E.
  - subst x2. rewrite FENCE_eq. simpl. now rewrite Hc.
  - injection E as _ E. now apply (Hx x1).
Qed.

Lemma fence_free_lead (w x : str) :
  forallb isspace w = true -> fence_free x -> fence_free (w ++ x).
Proof.
  induction w as [|c w IH]; intros H Hx; [exact Hx|].
  simpl in H. apply andb_true_iff in H as [Hc H].
  simpl. apply fence_free_cons; [now apply isspace_not_tick | now apply IH].
Qed.

(** A run of back-ticks that a non-tick interrupts is not a fence. *)
Lemma fence_interrupted (p r : str) (c : char) :
  startswith p FENCE = false -> (c =? 96)%N = false ->
  startswith (p ++ c :: r) FENCE = false.
Proof.
  rewrite FENCE_eq. intros H Hc.
  destruct p as [|a [|b [|d p]]]; simpl in *; rewrite ?Hc, ?andb_false_r;
    try reflexivity.
  rewrite startswith_nil_r in *. exact H.
Qed.

Lemma fence_free_payload (p w : str) :
  partition p FENCE = None -> blank w = true -> fence_free (p ++ w).
Proof.
  intros H B. destruct w as [|c w]; [discriminate|].
  cbn [blank] in B. pose proof B as B'.
  simpl in B'. apply andb_true_iff in B' as [Hc _].
  induction p as [|a p IH].
  - simpl. apply (fence_free_lead (c :: w) []) in B; [|apply fence_free_nil].
    now rewrite app_nil_r in B.
  - intros x1 x2 r E N. destruct x1 as [|a' x1].
    + cbn [app] in E. subst x2.
      change (a :: p ++ c :: w) with ((a :: p) ++ c :: w).
      rewrite <- app_assoc. cbn [app].
      apply (fence_interrupted (a :: p)).
      * exact (partition_None_suffix _ _ H [] (a :: p) eq_refl).
      * now apply isspace_not_tick.
    + simpl in E. injection E as _ E. apply (IH) with (x1 := x1); [|exact E|exact N].
      apply (partition_None_infix [a] p []). now rewrite app_nil_r.
Qed.

Lemma fence_free_no_fence (x : str) : fence_free x -> partition x FENCE = None.
Proof.
  intros H. apply partition_None_intro. intros x1 x2 E.
  destruct x2 as [|c x2]; [reflexivity|].
  rewrite <- (app_nil_r (c :: x2)). now apply (H x1).
Qed.

(** [```json] does not overlap itself: where it does not occur in
    [pre], its first occurrence in [pre ++ ```json ...] is the one
    written. *)
Lemma fence_json_no_overlap (y r : str) :
  y <> [] -> startswith y FENCE_JSON = false ->
  startswith (y ++ FENCE_JSON ++ r) FENCE_JSON = false.
Proof.
  rewrite FENCE_JSON_eq. intros N H.
  destruct y as [|a [|b [|c [|d [|e [|f [|g y]]]]]]]; [congruence|..];
    simpl in *; rewrite ?startswith_nil_r in *; try exact H;
    repeat match goal with
           | |- context [N.eqb ?u ?v] =>
               is_var u; destruct (N.eqb u v); simpl; try reflexivity
           end.
Qed.

Lemma partition_json_first (pre rest : str) :
  partition pre FENCE_JSON = None ->
  partition (pre ++ FENCE_JSON ++ rest) FENCE_JSON = Some (pre, rest).
Proof.
  intros H. rewrite partition_past.
  - now rewrite partition_at_start, app_nil_r.
  - intros x1 x2 E N. apply fence_json_no_overlap; [exact N|].
    exact (partition_None_suffix _ _ H x1 x2 E).
Qed.

(** Raw text without a fence is handed on as it is. *)
Lemma extract_raw (t : str) :
  partition t FENCE = None -> extract_json_payload t = t.
Proof.
  intros H. unfold extract_json_payload, contains.
  rewrite FENCE_JSON_app, (partition_weaker _ _ _ H). now rewrite H.
Qed.

End Fences.

(* ================================================================= *)
(** * Running the three functions                                     *)
(* ================================================================= *)

Section Runs.

Variable rt : Runtime.

Lemma truthy_key (k : str) : k <> [] -> negb (truthy (PyStr k)) = false.
Proof. destruct k; [congruence | reflexivity]. Qed.

(** ** Silent steps *)

Lemma silent_ret {A} (a : A) : silent (ret a).
Proof. intros tr; reflexivity. Qed.

Lemma silent_raise {A} (e : exn) : silent (@raise A e).
Proof. intros tr; reflexivity. Qed.

Lemma silent_lift {A} (r : exn + A) : silent (lift r).
Proof. destruct r; intros tr; reflexivity. Qed.

Lemma silent_bind {A B} (m : M A) (k : A -> M B) :
  silent m -> (forall a, silent (k a)) -> silent (bind m k).
Proof.
  intros Hm Hk tr. unfold bind. specialize (Hm tr).
  destruct (m tr) as [[a|e] tr']; simpl in Hm; subst tr'; [apply Hk | reflexivity].
Qed.

Lemma silent_get (v : value) (key : str) (default : value) : silent (get v key default).
Proof. destruct v; intros tr; reflexivity. Qed.

Lemma silent_slice_to (v : value) (n : nat) : silent (slice_to v n).
Proof. destruct v; intros tr; reflexivity. Qed.

Lemma silent_iterate (v : value) : silent (iterate v).
Proof. destruct v; intros tr; reflexivity. Qed.

Lemma silent_raise_for_status (response : Response) : silent (raise_for_status response).
Proof.
  intros tr. unfold raise_for_status.
  destruct (_ && _)%bool; [reflexivity|]. destruct (_ && _)%bool; reflexivity.
Qed.

Lemma silent_for_article_in (articles headlines : list value) :
  silent (for_article_in articles headlines).
Proof.
  revert headlines. induction articles as [|article rest IH]; intros headlines.
  - apply silent_ret.
  - cbn [for_article_in].
    apply silent_bind; [apply silent_get | intros title].
    apply silent_bind.
    { destruct (truthy title); [|apply silent_ret].
      apply silent_bind; [apply silent_get | intros; apply silent_ret]. }
    intros [|]; [|apply IH].
    repeat (apply silent_bind; [apply silent_get | intros]). apply IH.
Qed.

Lemma try_emit_silent {A} (ev : event) (body : M A) (h : exn -> M A) (tr : trace) :
  silent body -> (forall e, silent (h e)) ->
  snd (try_except (bind (emit ev) (fun _ => body)) h tr) = tr ++ [ev].
Proof.
  intros Hb Hh. unfold try_except, bind, emit. specialize (Hb (tr ++ [ev])).
  destruct (body (tr ++ [ev])) as [[a|e] tr']; simpl in Hb; subst tr';
    [reflexivity | apply Hh].
Qed.

(** ** The unwrapping never fails *)

Lemma contains_partition (s sub : str) :
  contains s sub = true -> exists b a, partition s sub = Some (b, a).
Proof.
  unfold contains. destruct (partition s sub) as [[b a]|]; [|discriminate].
  intros _. now exists b, a.
Qed.

Lemma unwrap_extract (t : str) (tr : trace) :
  unwrap t tr = (Return (extract_json_payload t), tr).
Proof.
  assert (step : forall sep, sep <> [] -> contains t sep = true ->
            bind (index (split t sep) 1)
                 (fun after => bind (index (split after FENCE) 0)
                                 (fun inner => ret (strip inner))) tr
            = (Return (strip (nth 0 (split (nth 1 (split t sep) []) FENCE) [])), tr)).
  { intros sep N C. destruct (contains_partition _ _ C) as (b & a & P).
    pose proof (split_second _ _ _ _ N P) as S1.
    unfold bind, index. rewrite (nth_error_nth _ _ _ S1), S1.
    cbn [ret]. now rewrite split_nonempty. }
  unfold unwrap, extract_json_payload.
  destruct (contains t FENCE_JSON) eqn:C1; [now apply step|].
  destruct (contains t FENCE) eqn:C2; [now apply step | reflexivity].
Qed.

(** ** The Analyzer *)

Lemma analyze_with_claude_sample (headlines : list value) (tr : trace) :
  api_key rt = [] ->
  analyze_with_claude rt headlines tr
  = (Return SAMPLE_INSIGHTS, tr ++ [Called "analyze_with_claude"]).
Proof.
  intros K. unfold analyze_with_claude, bind, emit. now rewrite K.
Qed.

Lemma slice_after_parse (v : value) (tr : trace) :
  try_except
    (slice_to match v with PyDict _ => PyList [v] | _ => v end 5)
    (fun e =>
       match e with
       | JSONDecodeError _ _ _ =>
           raise (HTTPException 500
                    (py "Failed to parse Claude response as JSON: " ++ exn_str e))
       | _ => raise (HTTPException 500 (py "Claude analysis failed: " ++ exn_str e))
       end) tr
  = (after_parse (inr v), tr).
Proof. destruct v; reflexivity. Qed.

(** With a credential and a reply whose first block reads [t], the
    Analyzer returns what lines 148-159 make of the extracted text, and
    the trace shows the one call to the model API. *)
Lemma analyze_with_claude_run (headlines : list value) (tr : trace) (t : str) :
  api_key rt <> [] ->
  reply_text rt headlines = Some t ->
  analyze_with_claude rt headlines tr
  = (after_parse (json_loads rt (extract_json_payload t)),
     tr ++ analyze_events rt headlines).
Proof.
  intros K R. unfold analyze_with_claude.
  unfold bind at 1. unfold emit at 1. rewrite (truthy_key _ K).
  unfold reply_text, request_for in R. unfold analyze_events, request_for.
  unfold try_except, bind, emit, lift.
  rewrite <- app_assoc. cbn [app].
  destruct (messages_create rt _) as [e|message]; [discriminate|].
  cbn [ret]. unfold index.
  destruct (content message) as [|block blocks]; [discriminate|].
  cbn [nth_error ret].
  assert (B : match block with TextBlock t0 => strip t0 | OtherBlock s => strip s end = t)
    by (destruct block; now injection R).
  rewrite B, unwrap_extract.
  destruct (json_loads rt (extract_json_payload t)) as [e|v].
  - cbn [raise]. destruct e; reflexivity.
  - cbn [ret]. pose proof (slice_after_parse v) as S.
    unfold try_except in S. specialize (S (tr ++ analyze_events rt headlines)).
    unfold analyze_events, request_for in S.
    destruct (slice_to _ 5 _) as [[a|e] tr'] eqn:Q; exact S.
Qed.

(** ** The Fetcher *)

Lemma fetch_headlines_sample (tr : trace) :
  NEWS_API_KEY rt = [] ->
  fetch_headlines rt tr = (Return SAMPLE_HEADLINES, tr ++ [Called "fetch_headlines"]).
Proof.
  intros K. unfold fetch_headlines, bind, emit. now rewrite K.
Qed.

Lemma fetch_headlines_unreachable (tr : trace) (e : exn) :
  NEWS_API_KEY rt <> [] ->
  news_reply rt = inl e ->
  fetch_headlines rt tr
  = (Raise (HTTPException 500 (py "Failed to fetch headlines: " ++ exn_str e)),
     tr ++ fetch_events rt).
Proof.
  intros K R. unfold fetch_headlines.
  unfold bind at 1. unfold emit at 1. rewrite (truthy_key _ K).
  unfold news_reply in R. unfold try_except, bind, emit, lift, fetch_events.
  rewrite R, <- app_assoc. reflexivity.
Qed.

Lemma fetch_headlines_rejected (tr : trace) (response : Response) :
  NEWS_API_KEY rt <> [] ->
  news_reply rt = inr response ->
  is_error_status (status_code response) = true ->
  fetch_headlines rt tr
  = (Raise (HTTPException 500
              (py "Failed to fetch headlines: " ++ status_error_text response)),
     tr ++ fetch_events rt).
Proof.
  intros K R E. unfold fetch_headlines.
  unfold bind at 1. unfold emit at 1. rewrite (truthy_key _ K).
  unfold news_reply in R. unfold try_except, bind, emit, lift, fetch_events.
  rewrite R, <- app_assoc. cbn [ret app].
  unfold raise_for_status, status_error_text.
  unfold is_error_status in E. apply andb_true_iff in E as [E1 E2].
  rewrite E1. cbn [andb].
  destruct (status_code response <? 500)%Z eqn:L.
  - reflexivity.
  - assert (G : (500 <=? status_code response)%Z = true) by lia.
    rewrite G, E2. reflexivity.
Qed.

(** One round of the loop on an object *)
Lemma for_article_in_object (d : list (str * value)) (rest headlines : list value)
      (tr : trace) :
  for_article_in (PyDict d :: rest) headlines tr
  = for_article_in rest
      (if qualifies (PyDict d) then headlines ++ [headline_of (PyDict d)] else headlines)
      tr.
Proof.
  cbn [for_article_in]. unfold qualifies, headline_of, has_key, field.
  unfold bind, get. cbn [ret].
  destruct (dict_lookup d (py "title")) as [t|]; cbn [truthy andb]; [|reflexivity].
  destruct (truthy t); cbn [andb]; [|reflexivity].
  destruct (dict_lookup d (py "url")) as [u|]; cbn [truthy ret]; [|reflexivity].
  destruct (truthy u); [|reflexivity].
  now destruct (dict_lookup d (py "description")).
Qed.

(** The loop keeps the qualifying articles, in order. *)
Lemma for_article_in_objects (articles headlines : list value) (tr : trace) :
  forallb is_object articles = true ->
  for_article_in articles headlines tr
  = (Return (headlines ++ map headline_of (filter qualifies articles)), tr).
Proof.
  revert headlines. induction articles as [|article rest IH]; intros headlines H.
  - simpl. now rewrite app_nil_r.
  - simpl in H. apply andb_true_iff in H as [O H].
    destruct article as [| | | | | |d]; try discriminate.
    rewrite for_article_in_object, IH by exact H. cbn [filter].
    destruct (qualifies (PyDict d)); [|reflexivity].
    now rewrite <- app_assoc.
Qed.

Lemma fetch_headlines_articles (tr : trace) (response : Response)
      (d : list (str * value)) (articles : list value) :
  NEWS_API_KEY rt <> [] ->
  news_reply rt = inr response ->
  is_error_status (status_code response) = false ->
  json_loads rt (text response) = inr (PyDict d) ->
  dict_lookup d (py "articles") = Some (PyList articles) ->
  forallb is_object (firstn 15 articles) = true ->
  fetch_headlines rt tr
  = (Return (map headline_of (filter qualifies (firstn 15 articles))),
     tr ++ fetch_events rt).
Proof.
  intros K R E J A O. unfold fetch_headlines.
  unfold bind at 1. unfold emit at 1. rewrite (truthy_key _ K).
  unfold news_reply in R. unfold try_except, bind, emit, lift, fetch_events.
  rewrite R, <- app_assoc. cbn [ret app].
  unfold raise_for_status. unfold is_error_status in E.
  destruct (400 <=? status_code response)%Z eqn:E1;
    destruct (status_code response <? 500)%Z eqn:E2;
    destruct (500 <=? status_code response)%Z eqn:E3;
    destruct (status_code response <? 600)%Z eqn:E4;
    cbn [andb] in *; try discriminate; try lia;
    cbn [ret]; rewrite J; cbn [get ret]; rewrite A; cbn [slice_to iterate ret];
    rewrite (for_article_in_objects _ [] _ O); reflexivity.
Qed.

(** Whatever the Fetcher does, it adds its own entry and at most the
    one outbound request to the trace. *)
Lemma fetch_headlines_trace (tr : trace) :
  snd (fetch_headlines rt tr) = tr ++ [Called "fetch_headlines"]
  \/ snd (fetch_headlines rt tr) = tr ++ fetch_events rt.
Proof.
  unfold fetch_headlines. unfold bind at 1. unfold emit at 1.
  destruct (negb (truthy (PyStr (NEWS_API_KEY rt)))); [now left | right].
  unfold fetch_events.
  change [Called "fetch_headlines"; HttpGet NEWS_API_URL (news_params rt) 10]
    with ([Called "fetch_headlines"] ++ [HttpGet NEWS_API_URL (news_params rt) 10]).
  rewrite app_assoc. apply try_emit_silent; [|intros e; apply silent_raise].
  apply silent_bind; [apply silent_lift | intros response].
  apply silent_bind; [apply silent_raise_for_status | intros _].
  apply silent_bind; [apply silent_lift | intros data].
  apply silent_bind; [apply silent_get | intros found].
  apply silent_bind; [apply silent_slice_to | intros articles].
  apply silent_bind; [apply silent_iterate | intros items].
  apply silent_for_article_in.
Qed.

(** ** The route *)

Lemma analyze_no_headlines (tr tr' : trace) :
  fetch_headlines rt tr = (Return [], tr') ->
  analyze rt tr = (Return (PyList []), tr').
Proof.
  intros F. unfold analyze, try_except, bind. now rewrite F.
Qed.

Lemma analyze_fetch_failed (tr tr' : trace) (code : Z) (detail : str) :
  fetch_headlines rt tr = (Raise (HTTPException code detail), tr') ->
  analyze rt tr = (Raise (HTTPException code detail), tr').
Proof.
  intros F. unfold analyze, try_except, bind. now rewrite F.
Qed.

Lemma analyze_some_headlines (tr tr' tr'' : trace) (headlines : list value)
      (r : outcome value) :
  fetch_headlines rt tr = (Return headlines, tr') ->
  headlines <> [] ->
  analyze_with_claude rt headlines tr' = (r, tr'') ->
  analyze rt tr
  = (match r with
     | Return v => Return v
     | Raise (HTTPException code detail) => Raise (HTTPException code detail)
     | Raise e => Raise (HTTPException 500 (py "Analysis failed: " ++ exn_str e))
     end, tr'').
Proof.
  intros F N A. unfold analyze, try_except, bind. rewrite F.
  destruct headlines as [|h hs]; [congruence|]. cbn [truthy negb].
  rewrite A. destruct r as [v|[]]; reflexivity.
Qed.

End Runs.

(* ================================================================= *)
(** * The specification's properties                                  *)
(* ================================================================= *)

Lemma contains_false (s sub : str) : contains s sub = false -> partition s sub = None.
Proof.
  unfold contains. now destruct (partition s sub) as [[b a]|].
Qed.

(** The reply text of a runtime that answers [reply] *)
Lemma reply_text_replying (rt : Runtime) (reply : str) (headlines : list value) :
  reply_text (replying rt reply) headlines = Some (strip reply).
Proof. reflexivity. Qed.

(** What the Analyzer does with a reply that reads [reply] *)
Lemma analyze_replying (rt : Runtime) (reply : str) (headlines : list value)
      (tr : trace) :
  api_key rt <> [] ->
  analyze_with_claude (replying rt reply) headlines tr
  = (after_parse (json_loads rt (extract_json_payload (strip reply))),
     tr ++ analyze_events rt headlines).
Proof.
  intros K.
  exact (analyze_with_claude_run (replying rt reply) headlines tr (strip reply)
           K (reply_text_replying rt reply headlines)).
Qed.

Lemma strip_json_block (w1 p w2 : str) :
  strip (json_block w1 p w2) = json_block w1 p w2.
Proof.
  unfold json_block. rewrite FENCE_JSON_eq, FENCE_eq.
  change ([96; 96; 96; 106; 115; 111; 110] ++ w1 ++ p ++ w2 ++ [96; 96; 96])%N
    with (96 :: ([96; 96; 106; 115; 111; 110] ++ w1 ++ p ++ w2 ++ [96; 96; 96]))%N.
  replace ([96; 96; 106; 115; 111; 110] ++ w1 ++ p ++ w2 ++ [96; 96; 96])%N
    with (([96; 96; 106; 115; 111; 110] ++ w1 ++ p ++ w2 ++ [96; 96]) ++ [96])%N
    by (now rewrite <- !app_assoc).
  now apply strip_fixed.
Qed.

Lemma strip_code_block (w1 p w2 : str) :
  strip (code_block w1 p w2) = code_block w1 p w2.
Proof.
  unfold code_block. rewrite FENCE_eq.
  change ([96; 96; 96] ++ w1 ++ p ++ w2 ++ [96; 96; 96])%N
    with (96 :: ([96; 96] ++ w1 ++ p ++ w2 ++ [96; 96; 96]))%N.
  replace ([96; 96] ++ w1 ++ p ++ w2 ++ [96; 96; 96])%N
    with (([96; 96] ++ w1 ++ p ++ w2 ++ [96; 96]) ++ [96])%N
    by (now rewrite <- !app_assoc).
  now apply strip_fixed.
Qed.

Lemma ends_with_tick_snoc (x : str) (c : char) :
  ends_with_tick (x ++ [c]) = N.eqb c 96.
Proof. unfold ends_with_tick. now rewrite rev_app_distr. Qed.

(** A text without a fence that does not end with a back-tick cannot
    complete a fence with what follows it. *)
Lemma fence_free_intro (x : str) :
  partition x FENCE = None -> ends_with_tick x = false -> fence_free x.
Proof.
  intros P E x1 x2 r Ex N.
  pose proof (partition_None_suffix _ _ P x1 x2 Ex) as S0. rewrite FENCE_eq in *.
  destruct x2 as [|a [|b [|c x2]]]; [congruence|..].
  - subst x. rewrite ends_with_tick_snoc in E. simpl. now rewrite E.
  - subst x. replace (x1 ++ [a; b]) with ((x1 ++ [a]) ++ [b]) in E
      by (now rewrite <- app_assoc).
    rewrite ends_with_tick_snoc in E. simpl. rewrite E. now rewrite andb_false_r.
  - simpl in S0 |- *. rewrite startswith_nil_r in *. exact S0.
Qed.

(** White space around a payload brings no fence. *)
Lemma no_fence_padded (w1 p w2 : str) :
  partition p FENCE = None ->
  forallb isspace w1 = true -> forallb isspace w2 = true ->
  partition (w1 ++ p ++ w2) FENCE = None.
Proof.
  intros P W1 W2.
  assert (Q : partition (p ++ w2) FENCE = None).
  { destruct w2 as [|c w2]; [now rewrite app_nil_r|].
    apply fence_free_no_fence, fence_free_payload; [exact P | exact W2]. }
  clear P. induction w1 as [|c w1 IH]; [exact Q|].
  simpl in W1. apply andb_true_iff in W1 as [Wc W1].
  cbn [app]. rewrite partition_eq, FENCE_eq. cbn [startswith].
  rewrite (isspace_not_tick _ Wc). cbn [andb]. rewrite <- FENCE_eq.
  now rewrite (IH W1).
Qed.

Lemma fence_free_padded_any (w1 p w2 : str) :
  partition p FENCE = None ->
  forallb isspace w1 = true -> forallb isspace w2 = true ->
  ends_with_tick (w1 ++ p ++ w2) = false ->
  fence_free (w1 ++ p ++ w2).
Proof.
  intros P W1 W2 E. apply fence_free_intro; [now apply no_fence_padded | exact E].
Qed.

(** The first [```json] block wins, whatever precedes it and whatever
    follows its closing fence, unless what follows turns the closing
    fence into a second marker. *)
Lemma extract_json_block_between (pre x post : str) :
  partition pre FENCE_JSON = None -> fence_free x ->
  startswith post (py "`json") = false -> startswith post (py "``json") = false ->
  extract_json_payload (pre ++ FENCE_JSON ++ x ++ FENCE ++ post) = strip x.
Proof.
  intros H Hx P1 P2. unfold extract_json_payload, contains.
  pose proof (partition_json_first pre (x ++ FENCE ++ post) H) as P. rewrite P.
  assert (N : FENCE_JSON <> []) by discriminate.
  rewrite (nth_error_nth _ _ _ (split_second _ _ _ _ N P)).
  assert (X0 : partition x FENCE = None) by now apply fence_free_no_fence.
  assert (X1 : forall z, partition (x ++ FENCE ++ z) FENCE = Some (x, z)).
  { intros z. rewrite (partition_past x (FENCE ++ z) FENCE) by (intros x1 x2; apply Hx).
    now rewrite partition_at_start, app_nil_r. }
  f_equal. rewrite split_first.
  destruct (partition (x ++ FENCE ++ post) FENCE_JSON) as [[b' a']|] eqn:Q;
    [|now rewrite X1].
  pose proof (partition_sound _ _ _ _ Q) as E.
  apply app_eq_app in E as [l [[Ex Ea]|[Eb Ef]]].
  - destruct l as [|c l].
    + rewrite app_nil_r in Ex. subst b'. now rewrite X0.
    + exfalso. pose proof (Hx b' (c :: l) (FENCE ++ post) Ex ltac:(discriminate)) as F.
      rewrite <- Ea in F. discriminate F.
  - rewrite FENCE_eq, FENCE_JSON_eq in Ef.
    destruct l as [|c1 [|c2 [|c3 l]]]; cbn [app] in Ef.
    + rewrite app_nil_r in Eb. subst b'. now rewrite X0.
    + exfalso. injection Ef as _ Ef. subst post. simpl in P1.
      rewrite startswith_nil_r in P1. discriminate P1.
    + exfalso. injection Ef as _ _ Ef. subst post. simpl in P2.
      rewrite startswith_nil_r in P2. discriminate P2.
    + injection Ef as <- <- <- Ef. subst b'.
      change (x ++ 96 :: 96 :: 96 :: l)%N with (x ++ FENCE ++ l).
      now rewrite X1.
Qed.

(** A generic block is the one used when the text shows no [```json]
    marker and nothing before the block completes a fence. *)
Lemma extract_code_block_between (pre x post : str) :
  fence_free pre -> fence_free x ->
  partition (pre ++ FENCE ++ x ++ FENCE ++ post) FENCE_JSON = None ->
  extract_json_payload (pre ++ FENCE ++ x ++ FENCE ++ post) = strip x.
Proof.
  intros Hp Hx NJ. unfold extract_json_payload, contains. rewrite NJ.
  assert (P : partition (pre ++ FENCE ++ x ++ FENCE ++ post) FENCE
              = Some (pre, x ++ FENCE ++ post)).
  { rewrite (partition_past pre (FENCE ++ x ++ FENCE ++ post) FENCE)
      by (intros x1 x2; apply Hp).
    now rewrite partition_at_start, app_nil_r. }
  rewrite P. assert (N : FENCE <> []) by discriminate.
  rewrite (nth_error_nth _ _ _ (split_second _ _ _ _ N P)).
  rewrite (partition_past x (FENCE ++ post) FENCE) by (intros x1 x2; apply Hx).
  rewrite partition_at_start, app_nil_r, split_first.
  now rewrite (fence_free_no_fence _ Hx).
Qed.

(** C1 (as amended).  For a payload that contains no fence marker and
    does not end with a back-tick, the Analyzer gives one and the same
    result whether the model presents the payload raw, inside a
    [```json] block or inside a generic block, with or without white
    space between the fences and the payload: in each case the parser
    receives the payload stripped of surrounding white space.  The
    first [```json] block is the one used whenever that marker is
    present: text before it that lacks the marker (a generic block, for
    one) and text after its closing fence change nothing, unless that
    text turns the closing fence into a second marker.  A generic block
    is used when the reply shows no [```json] marker and nothing before
    the block completes a fence. *)
Theorem C1_presentation_forms
        (rt : Runtime) (headlines : list value) (tr : trace)
        (p w1 w2 pre post reply pre' post' reply' : str) :
  api_key rt <> [] ->
  contains p FENCE = false ->
  forallb isspace w1 = true -> forallb isspace w2 = true ->
  ends_with_tick (w1 ++ p ++ w2) = false ->
  contains pre FENCE_JSON = false ->
  startswith post (py "`json") = false ->
  startswith post (py "``json") = false ->
  strip reply = pre ++ json_block w1 p w2 ++ post ->
  contains pre' FENCE = false ->
  ends_with_tick pre' = false ->
  strip reply' = pre' ++ code_block w1 p w2 ++ post' ->
  contains (strip reply') FENCE_JSON = false ->
  analyze_with_claude (replying rt p) headlines tr
  = (after_parse (json_loads rt (strip p)), tr ++ analyze_events rt headlines)
  /\ analyze_with_claude (replying rt (json_block w1 p w2)) headlines tr
     = analyze_with_claude (replying rt p) headlines tr
  /\ analyze_with_claude (replying rt (code_block w1 p w2)) headlines tr
     = analyze_with_claude (replying rt p) headlines tr
  /\ analyze_with_claude (replying rt reply) headlines tr
     = analyze_with_claude (replying rt p) headlines tr
  /\ analyze_with_claude (replying rt reply') headlines tr
     = analyze_with_claude (replying rt p) headlines tr.
Proof.
  intros K C W1 W2 E CP P1 P2 R C' E' R' NJ.
  apply contains_false in C. apply contains_false in CP.
  apply contains_false in C'. apply contains_false in NJ.
  pose proof (fence_free_padded_any w1 p w2 C W1 W2 E) as F.
  pose proof (strip_padded w1 p w2 W1 W2) as S.
  assert (Eraw : extract_json_payload (strip p) = strip p).
  { apply extract_raw. destruct (strip_infix p) as (a & b & Ep).
    apply (partition_None_infix a (strip p) b). now rewrite <- Ep. }
  assert (Ejson : forall pre0 post0,
             partition pre0 FENCE_JSON = None ->
             startswith post0 (py "`json") = false ->
             startswith post0 (py "``json") = false ->
             extract_json_payload (pre0 ++ json_block w1 p w2 ++ post0) = strip p).
  { intros pre0 post0 H0 Q1 Q2. unfold json_block.
    replace (pre0 ++ (FENCE_JSON ++ w1 ++ p ++ w2 ++ FENCE) ++ post0)
      with (pre0 ++ FENCE_JSON ++ (w1 ++ p ++ w2) ++ FENCE ++ post0)
      by (now rewrite <- !app_assoc).
    now rewrite extract_json_block_between. }
  assert (Ecode : forall pre0 post0,
             fence_free pre0 ->
             partition (pre0 ++ code_block w1 p w2 ++ post0) FENCE_JSON = None ->
             extract_json_payload (pre0 ++ code_block w1 p w2 ++ post0) = strip p).
  { intros pre0 post0 H0 N0. unfold code_block in *.
    replace (pre0 ++ (FENCE ++ w1 ++ p ++ w2 ++ FENCE) ++ post0)
      with (pre0 ++ FENCE ++ (w1 ++ p ++ w2) ++ FENCE ++ post0) in *
      by (now rewrite <- !app_assoc).
    now rewrite extract_code_block_between. }
  assert (NJ0 : partition ([] ++ code_block w1 p w2 ++ []) FENCE_JSON = None).
  { rewrite R' in NJ. rewrite app_nil_r. cbn [app].
    apply (partition_None_infix pre' _ post'). exact NJ. }
  rewrite !analyze_replying by exact K.
  rewrite strip_json_block, strip_code_block, R, R'.
  rewrite Eraw, (Ejson pre post CP P1 P2).
  rewrite (Ecode pre' post' (fence_free_intro _ C' E')) by (now rewrite <- R').
  pose proof (Ejson [] [] eq_refl eq_refl eq_refl) as J0.
  pose proof (Ecode [] [] fence_free_nil NJ0) as C0.
  rewrite app_nil_r in J0, C0. cbn [app] in J0, C0. now rewrite J0, C0.
Qed.

(** A [```json] block written without white space, after a generic
    block and before a closing remark; and a generic block between two
    remarks *)
Lemma C1_presentation_forms_witness :
  analyze_with_claude (replying model_down chatty_json_reply) one_headline []
  = analyze_with_claude (replying model_down payload_H) one_headline []
  /\ analyze_with_claude (replying model_down chatty_code_reply) one_headline []
     = analyze_with_claude (replying model_down payload_H) one_headline [].
Proof.
  destruct (C1_presentation_forms model_down one_headline [] payload_H [] []
              remark_before remark_after chatty_json_reply
              (py "Result:" ++ [NEWLINE]) remark_after chatty_code_reply)
    as (_ & _ & _ & A & B);
    try reflexivity; try discriminate.
  split; [exact A | exact B].
Defined.

(** C1 (as stated) fails: a valid JSON payload that quotes a fenced
    block inside a string is cut at the quoted fence.  Sent raw it
    yields the empty list, sent inside either kind of block it is a
    parse error. *)
Lemma C1_quoted_fence_differs :
  JSONDecoder.loads quoting_payload
  = inr (PyList [PyDict [(py "headline", PyStr (py "```[]```"))]])
  /\ outcome_of_reply quoting_payload = Return (PyList [])
  /\ outcome_of_reply (json_block [NEWLINE] quoting_payload [NEWLINE])
     <> outcome_of_reply quoting_payload
  /\ outcome_of_reply (code_block [NEWLINE] quoting_payload [NEWLINE])
     <> outcome_of_reply quoting_payload.
Proof.
  repeat split; try (vm_compute; reflexivity); vm_compute; discriminate.
Qed.

(** C2.  With a credential configured and a news response whose body
    is an object with an [articles] list of objects, the Fetcher
    returns one Headline per article, among the first fifteen, whose
    title and url are both non-empty: as many records as there are such
    articles, in the order of the source, cut to fifteen before the
    filter. *)
Theorem C2_fetch_headlines_keeps_qualifying
        (rt : Runtime) (tr : trace) (response : Response)
        (d : list (str * value)) (articles : list value) :
  NEWS_API_KEY rt <> [] ->
  news_reply rt = inr response ->
  is_error_status (status_code response) = false ->
  json_loads rt (text response) = inr (PyDict d) ->
  dict_lookup d (py "articles") = Some (PyList articles) ->
  forallb is_object (firstn 15 articles) = true ->
  fetch_headlines rt tr
  = (Return (map headline_of (filter qualifies (firstn 15 articles))),
     tr ++ fetch_events rt)
  /\ length (map headline_of (filter qualifies (firstn 15 articles)))
     = length (filter qualifies (firstn 15 articles))
  /\ length (filter qualifies (firstn 15 articles)) <= 15.
Proof.
  intros K R E J A O. split; [|split].
  - now apply (fetch_headlines_articles rt tr response d articles).
  - apply length_map.
  - etransitivity; [apply filter_length_le|]. apply firstn_le_length.
Qed.

Lemma C2_fetch_headlines_keeps_qualifying_witness :
  fetch_headlines (live (inr (news_response 200 (py "OK") news_body)) (inl unreachable)) []
  = (Return (map headline_of (filter qualifies (firstn 15 news_articles))),
     [] ++ fetch_events (live (inr (news_response 200 (py "OK") news_body))
                           (inl unreachable)))
  /\ length (map headline_of (filter qualifies (firstn 15 news_articles)))
     = length (filter qualifies (firstn 15 news_articles))
  /\ length (filter qualifies (firstn 15 news_articles)) <= 15.
Proof.
  apply (C2_fetch_headlines_keeps_qualifying
           (live (inr (news_response 200 (py "OK") news_body)) (inl unreachable))
           [] (news_response 200 (py "OK") news_body)
           [(py "articles", PyList news_articles)] news_articles).
  - discriminate.
  - reflexivity.
  - reflexivity.
  - vm_compute. reflexivity.
  - reflexivity.
  - reflexivity.
Defined.

(** C3.  With a credential configured, when the text extracted from
    the model's reply parses to a JSON array, the Analyzer returns the
    first five elements of the array in order: exactly five when the
    array has more than five, and the whole array otherwise. *)
Theorem C3_at_most_five_insights
        (rt : Runtime) (headlines : list value) (tr : trace) (t : str)
        (l : list value) :
  api_key rt <> [] ->
  reply_text rt headlines = Some t ->
  json_loads rt (extract_json_payload t) = inr (PyList l) ->
  analyze_with_claude rt headlines tr
  = (Return (PyList (firstn 5 l)), tr ++ analyze_events rt headlines)
  /\ (if length l <=? 5 then firstn 5 l = l else length (firstn 5 l) = 5).
Proof.
  intros K R J. split.
  - rewrite (analyze_with_claude_run rt headlines tr t K R). now rewrite J.
  - destruct (Nat.leb_spec (length l) 5) as [L|L].
    + now apply firstn_all2.
    + rewrite length_firstn. lia.
Qed.

Lemma C3_at_most_five_insights_witness :
  analyze_with_claude (live (inl unreachable) (text_reply seven_items)) one_headline []
  = (Return (PyList (firstn 5 seven_objects)),
     [] ++ analyze_events (live (inl unreachable) (text_reply seven_items)) one_headline)
  /\ length (firstn 5 seven_objects) = 5.
Proof.
  apply (C3_at_most_five_insights
           (live (inl unreachable) (text_reply seven_items)) one_headline []
           seven_items seven_objects).
  - discriminate.
  - vm_compute. reflexivity.
  - vm_compute. reflexivity.
Defined.




(** C5.  Whenever the Fetcher returns an empty list, [POST /analyze]
    answers 200 with an empty array, and the Analyzer is not invoked:
    the trace of the request ends where the Fetcher left it and shows
    neither an entry into the Analyzer nor a call to the model API. *)
Theorem C5_no_headlines_no_analysis (rt : Runtime) (tr tr' : trace) :
  fetch_headlines rt tr = (Return [], tr') ->
  POST_analyze rt tr = ({| status := 200; body := PyList [] |}, tr')
  /\ exists events, tr' = tr ++ events /\ existsb analyzer_event events = false.
Proof.
  intros F. split.
  - unfold POST_analyze, serve. now rewrite (analyze_no_headlines rt tr tr' F).
  - destruct (fetch_headlines_trace rt tr) as [T|T]; rewrite F in T; simpl in T.
    + now exists [Called "fetch_headlines"].
    + now exists (fetch_events rt).
Qed.

Lemma C5_no_headlines_no_analysis_witness :
  POST_analyze
    (live (inr (news_response 200 (py "OK") empty_news_body)) (text_reply seven_items)) []
  = ({| status := 200; body := PyList [] |},
     fetch_events (live (inr (news_response 200 (py "OK") empty_news_body))
                        (text_reply seven_items))).
Proof.
  apply (C5_no_headlines_no_analysis
           (live (inr (news_response 200 (py "OK") empty_news_body))
                 (text_reply seven_items)) []
           (fetch_events (live (inr (news_response 200 (py "OK") empty_news_body))
                               (text_reply seven_items)))).
  vm_compute. reflexivity.
Defined.

(** C6 (as amended).  With a credential configured, whenever the
    outbound news request raises (a connection error, a timeout) or
    comes back with a 4xx or 5xx status, the Fetcher fails with an
    [HTTPException] of status 500 whose detail is "Failed to fetch
    headlines: " followed by the underlying message, and
    [POST /analyze] answers 500 with that detail. *)
Theorem C6_upstream_failure_is_500 (rt : Runtime) (tr : trace) (message : str) :
  NEWS_API_KEY rt <> [] ->
  upstream_failure rt = Some message ->
  fetch_headlines rt tr
  = (Raise (HTTPException 500 (py "Failed to fetch headlines: " ++ message)),
     tr ++ fetch_events rt)
  /\ POST_analyze rt tr
     = ({| status := 500;
           body := PyDict [(py "detail",
                            PyStr (py "Failed to fetch headlines: " ++ message))] |},
        tr ++ fetch_events rt).
Proof.
  intros K U.
  assert (F : fetch_headlines rt tr
              = (Raise (HTTPException 500 (py "Failed to fetch headlines: " ++ message)),
                 tr ++ fetch_events rt)).
  { unfold upstream_failure in U. destruct (news_reply rt) as [e|response] eqn:R.
    - injection U as <-. now apply fetch_headlines_unreachable.
    - destruct (is_error_status (status_code response)) eqn:E; [|discriminate].
      injection U as <-. now apply fetch_headlines_rejected. }
  split; [exact F|].
  unfold POST_analyze, serve. now rewrite (analyze_fetch_failed rt tr _ _ _ F).
Qed.

Lemma C6_upstream_failure_is_500_witness :
  POST_analyze
    (live (inr (news_response 429 (py "Too Many Requests") [])) (inl unreachable)) []
  = ({| status := 500;
        body := PyDict [(py "detail",
                         PyStr (py "Failed to fetch headlines: 429 Client Error: Too Many Requests for url: https://newsapi.org/v2/everything"))] |},
     fetch_events
       (live (inr (news_response 429 (py "Too Many Requests") [])) (inl unreachable))).
Proof.
  apply (C6_upstream_failure_is_500
           (live (inr (news_response 429 (py "Too Many Requests") [])) (inl unreachable))
           []
           (py "429 Client Error: Too Many Requests for url: https://newsapi.org/v2/everything")).
  - discriminate.
  - vm_compute. reflexivity.
Defined.

(** C6 (as stated) fails for a status that is neither 2xx nor an error
    status: a response with status 300 and a well-formed body passes
    [raise_for_status], the Fetcher returns normally and the route
    answers 200. *)
Lemma C6_status_300_is_not_an_error :
  NEWS_API_KEY (live (inr (news_response 300 (py "Multiple Choices") empty_news_body))
                     (inl unreachable)) <> []
  /\ is_success_status 300 = false
  /\ fetch_headlines
       (live (inr (news_response 300 (py "Multiple Choices") empty_news_body))
             (inl unreachable)) []
     = (Return [],
        fetch_events (live (inr (news_response 300 (py "Multiple Choices") empty_news_body))
                           (inl unreachable)))
  /\ fst (POST_analyze
            (live (inr (news_response 300 (py "Multiple Choices") empty_news_body))
                  (inl unreachable)) [])
     = {| status := 200; body := PyList [] |}.
Proof.
  repeat split; try discriminate; vm_compute; reflexivity.
Qed.

(** A description that is missing from a qualifying article becomes
    the empty string, and one that is a string is kept. *)
Lemma description_of_headline (d : list (str * value)) :
  (dict_lookup d (py "description") = None ->
   dict_lookup (match headline_of (PyDict d) with PyDict h => h | _ => [] end)
     (py "description") = Some (PyStr []))
  /\ (forall v, dict_lookup d (py "description") = Some v ->
      dict_lookup (match headline_of (PyDict d) with PyDict h => h | _ => [] end)
        (py "description") = Some v).
Proof.
  split; [intros E | intros v E]; unfold headline_of, has_key, field;
    rewrite E; reflexivity.
Qed.

(** C7.  The code at the failing input: an article whose description
    is present but null qualifies, and the Headline made from it
    carries [None] as its description, not the empty string and not a
    string. *)
Theorem C7_null_description_is_kept :
  JSONDecoder.loads news_body_null_description
  = inr (PyDict [(py "articles",
                  PyList [PyDict [ (py "title", PyStr (py "A"));
                                   (py "description", PyNone);
                                   (py "url", PyStr (py "http://a")) ]])])
  /\ fst (fetch_headlines
            (live (inr (news_response 200 (py "OK") news_body_null_description))
                  (inl unreachable)) [])
     = Return [PyDict [ (py "title", PyStr (py "A"));
                        (py "description", PyNone);
                        (py "url", PyStr (py "http://a")) ]].
Proof.
  split; vm_compute; reflexivity.
Qed.

(** C8.  When [NEWS_API_KEY] is empty, the Fetcher returns the fixed
    two-item sample, the two Headline records written out below, on
    every call and whatever the network would do: the trace gains the
    entry into the Fetcher and no outbound request. *)
Theorem C8_sample_headlines (rt : Runtime) (tr : trace) :
  NEWS_API_KEY rt = [] ->
  fetch_headlines rt tr
  = (Return
       [ PyDict
           [ (py "title", PyStr (py "Apple Reports Record Q4 Earnings, Stock Surges"));
             (py "description", PyStr (py
                "Apple Inc. announced record-breaking quarterly earnings, beating analyst expectations by 15%."));
             (py "url", PyStr (py "https://example.com/apple-earnings")) ];
         PyDict
           [ (py "title", PyStr (py "Federal Reserve Hints at Rate Cuts in 2024"));
             (py "description", PyStr (py
                "The Fed signals potential interest rate reductions, sparking market optimism."));
             (py "url", PyStr (py "https://example.com/fed-rates")) ] ],
     tr ++ [Called "fetch_headlines"])
  /\ existsb network_event (skipn (length tr) (snd (fetch_headlines rt tr))) = false.
Proof.
  intros K. rewrite (fetch_headlines_sample rt tr K). split; [reflexivity|].
  cbn [snd]. now rewrite skipn_app, skipn_all, Nat.sub_diag.
Qed.

Lemma C8_sample_headlines_witness :
  fetch_headlines offline []
  = (Return
       [ PyDict
           [ (py "title", PyStr (py "Apple Reports Record Q4 Earnings, Stock Surges"));
             (py "description", PyStr (py
                "Apple Inc. announced record-breaking quarterly earnings, beating analyst expectations by 15%."));
             (py "url", PyStr (py "https://example.com/apple-earnings")) ];
         PyDict
           [ (py "title", PyStr (py "Federal Reserve Hints at Rate Cuts in 2024"));
             (py "description", PyStr (py
                "The Fed signals potential interest rate reductions, sparking market optimism."));
             (py "url", PyStr (py "https://example.com/fed-rates")) ] ],
     [Called "fetch_headlines"])
  /\ existsb network_event (skipn 0 (snd (fetch_headlines offline []))) = false.
Proof.
  apply (C8_sample_headlines offline []). reflexivity.
Defined.

(** C9.  When the model credential is empty, the Analyzer returns the
    fixed one-item sample, the Insight record written out below, for
    every list of headlines, and the model API is not called: the trace
    gains the entry into the Analyzer and nothing else. *)
Theorem C9_sample_insights (rt : Runtime) (headlines : list value) (tr : trace) :
  api_key rt = [] ->
  analyze_with_claude rt headlines tr
  = (Return
       (PyList
          [ PyDict
              [ (py "headline", PyStr (py "Apple Reports Record Q4 Earnings, Stock Surges"));
                (py "article_url", PyStr (py "https://example.com/apple-earnings"));
                (py "stocks", PyList [PyStr (py "AAPL")]);
                (py "recommendation", PyStr (py "Buy AAPL"));
                (py "rationale", PyStr (py
                   "Strong earnings beat suggests continued growth momentum and potential upside."));
                (py "summary", PyStr (py
                   "Apple Inc. announced record-breaking quarterly earnings, beating analyst expectations by 15%. The company's iPhone sales and services revenue both exceeded forecasts.")) ] ]),
     tr ++ [Called "analyze_with_claude"])
  /\ existsb network_event (skipn (length tr) (snd (analyze_with_claude rt headlines tr)))
     = false.
Proof.
  intros K. rewrite (analyze_with_claude_sample rt headlines tr K). split; [reflexivity|].
  cbn [snd]. now rewrite skipn_app, skipn_all, Nat.sub_diag.
Qed.

Lemma C9_sample_insights_witness :
  analyze_with_claude offline one_headline []
  = (Return
       (PyList
          [ PyDict
              [ (py "headline", PyStr (py "Apple Reports Record Q4 Earnings, Stock Surges"));
                (py "article_url", PyStr (py "https://example.com/apple-earnings"));
                (py "stocks", PyList [PyStr (py "AAPL")]);
                (py "recommendation", PyStr (py "Buy AAPL"));
                (py "rationale", PyStr (py
                   "Strong earnings beat suggests continued growth momentum and potential upside."));
                (py "summary", PyStr (py
                   "Apple Inc. announced record-breaking quarterly earnings, beating analyst expectations by 15%. The company's iPhone sales and services revenue both exceeded forecasts.")) ] ]),
     [Called "analyze_with_claude"])
  /\ existsb network_event (skipn 0 (snd (analyze_with_claude offline one_headline [])))
     = false.
Proof.
  apply (C9_sample_insights offline one_headline []). reflexivity.
Defined.

(** C10.  With a credential configured, when the extracted text parses
    to a JSON string, the Analyzer raises nothing and returns the first
    five characters of that string, a [str] and not a list of records.
    Only a parsed object is wrapped into a one-element list; an array
    is cut to five elements, and any other value is not wrapped (it
    cannot be sliced, which surfaces as a 500). *)
Theorem C10_string_payload_is_sliced
        (rt : Runtime) (headlines : list value) (tr : trace) (t : str) (v : value) :
  api_key rt <> [] ->
  reply_text rt headlines = Some t ->
  json_loads rt (extract_json_payload t) = inr v ->
  match v with
  | PyStr s =>
      analyze_with_claude rt headlines tr
      = (Return (PyStr (firstn 5 s)), tr ++ analyze_events rt headlines)
  | PyDict d =>
      analyze_with_claude rt headlines tr
      = (Return (PyList [PyDict d]), tr ++ analyze_events rt headlines)
  | PyList l =>
      analyze_with_claude rt headlines tr
      = (Return (PyList (firstn 5 l)), tr ++ analyze_events rt headlines)
  | _ =>
      analyze_with_claude rt headlines tr
      = (Raise (HTTPException 500
                  (py "Claude analysis failed: '" ++ type_name v
                   ++ py "' object is not subscriptable")),
         tr ++ analyze_events rt headlines)
  end.
Proof.
  intros K R J.
  rewrite (analyze_with_claude_run rt headlines tr t K R), J.
  destruct v; reflexivity.
Qed.

Lemma C10_string_payload_is_sliced_witness :
  analyze_with_claude (live (inl unreachable) (text_reply (pyq "'hello world'")))
    one_headline []
  = (Return (PyStr (py "hello")),
     [] ++ analyze_events (live (inl unreachable) (text_reply (pyq "'hello world'")))
             one_headline).
Proof.
  apply (C10_string_payload_is_sliced
           (live (inl unreachable) (text_reply (pyq "'hello world'"))) one_headline []
           (pyq "'hello world'") (PyStr (py "hello world"))).
  - discriminate.
  - vm_compute. reflexivity.
  - vm_compute. reflexivity.
Defined.

(* ================================================================= *)
(** * Further properties of the code                                  *)
(* ================================================================= *)

(** ** The unwrapping *)

Section Unwrapping.

(** The text before the leftmost occurrence of a separator does not
    contain the separator. *)
Lemma partition_before_free (s sep b a : str) :
  sep <> [] -> partition s sep = Some (b, a) -> partition b sep = None.
Proof.
  intros N. revert b. induction s as [|c s IH]; intros b H;
    pose proof (partition_sound _ _ _ _ H) as E; rewrite partition_eq in H.
  - destruct (startswith [] sep); [|discriminate].
    injection H as <- <-. rewrite partition_eq. destruct sep; [congruence | reflexivity].
  - destruct (startswith (c :: s) sep) eqn:S0.
    + injection H as <- <-. rewrite partition_eq. destruct sep; [congruence | reflexivity].
    + destruct (partition s sep) as [[b' a']|] eqn:P; [|discriminate].
      injection H as <- <-. rewrite partition_eq.
      destruct (startswith (c :: b') sep) eqn:S1.
      * apply (startswith_app_l _ _ (sep ++ a')) in S1.
        rewrite <- E in S1. congruence.
      * now rewrite (IH b' eq_refl).
Qed.

Lemma first_piece_free (s sep : str) :
  sep <> [] -> partition (nth 0 (split s sep) []) sep = None.
Proof.
  intros N. rewrite split_first.
  destruct (partition s sep) as [[b a]|] eqn:P; [|exact P].
  exact (partition_before_free _ _ _ _ N P).
Qed.

Lemma strip_free (s sep : str) : partition s sep = None -> partition (strip s) sep = None.
Proof.
  intros H. destruct (strip_infix s) as (a & b & E).
  apply (partition_None_infix a (strip s) b). now rewrite <- E.
Qed.

Lemma lstrip_idem (s : str) : lstrip (lstrip s) = lstrip s.
Proof.
  induction s as [|c s IH]; [reflexivity|].
  simpl. destruct (isspace c) eqn:W; [exact IH|]. simpl. now rewrite W.
Qed.

Lemma rstrip_idem (s : str) : rstrip (rstrip s) = rstrip s.
Proof. unfold rstrip. now rewrite rev_involutive, lstrip_idem. Qed.

Lemma lstrip_split (s : str) :
  exists a, s = a ++ lstrip s /\ forallb isspace a = true.
Proof.
  induction s as [|c s (a & E & W)]; [now exists []|].
  simpl. destruct (isspace c) eqn:Wc.
  - exists (c :: a). simpl. rewrite Wc, W. split; [now rewrite <- E | reflexivity].
  - now exists [].
Qed.

(** Stripping the right end keeps a left end that is already
    stripped. *)
Lemma lstrip_rstrip (s : str) : lstrip s = s -> lstrip (rstrip s) = rstrip s.
Proof.
  intros L. destruct (lstrip_split (rev s)) as (w & E & W).
  assert (P : s = rstrip s ++ rev w).
  { unfold rstrip. rewrite <- rev_app_distr, <- E. now rewrite rev_involutive. }
  destruct (rstrip s) as [|c r] eqn:R; [reflexivity|].
  destruct s as [|c' s']; [discriminate P|].
  simpl in P. injection P as -> _. simpl in L |- *.
  destruct (isspace c); [|reflexivity].
  exfalso. destruct (lstrip_split s') as (a & Ea & _).
  apply (f_equal (@length char)) in L. apply (f_equal (@length char)) in Ea.
  rewrite length_app in Ea. simpl in L. lia.
Qed.

Lemma strip_idem (s : str) : strip (strip s) = strip s.
Proof.
  unfold strip. rewrite (lstrip_rstrip (lstrip s)) by apply lstrip_idem.
  apply rstrip_idem.
Qed.

(** X1.  Whatever the model replied, the unwrapping of its stripped
    text never raises, and the text it hands to the parser contains no
    fence marker and has no white space at either end. *)
Theorem unwrap_result_is_clean (reply : str) (tr : trace) :
  exists payload,
    unwrap (strip reply) tr = (Return payload, tr)
    /\ contains payload FENCE = false
    /\ strip payload = payload.
Proof.
  exists (extract_json_payload (strip reply)). split; [apply unwrap_extract|].
  assert (N : FENCE <> []) by discriminate.
  unfold extract_json_payload, contains.
  destruct (partition (strip reply) FENCE_JSON) as [[b a]|] eqn:PJ.
  - split; [|apply strip_idem].
    now rewrite (strip_free _ _ (first_piece_free _ _ N)).
  - destruct (partition (strip reply) FENCE) as [[b a]|] eqn:PF.
    + split; [|apply strip_idem].
      now rewrite (strip_free _ _ (first_piece_free _ _ N)).
    + split; [now rewrite PF | apply strip_idem].
Qed.

(** A [```json] marker that no fence closes: everything after the
    marker is the payload. *)
Lemma extract_open_json_block (pre rest : str) :
  partition pre FENCE_JSON = None -> partition rest FENCE = None ->
  extract_json_payload (pre ++ FENCE_JSON ++ rest) = strip rest.
Proof.
  intros H R. unfold extract_json_payload, contains.
  pose proof (partition_json_first pre rest H) as P. rewrite P.
  assert (N : FENCE_JSON <> []) by discriminate.
  rewrite (nth_error_nth _ _ _ (split_second _ _ _ _ N P)).
  rewrite FENCE_JSON_app at 1. rewrite (partition_weaker _ _ _ R).
  now rewrite split_first, R.
Qed.

End Unwrapping.

(** ** The Fetcher *)

Section Fetcher.

Variable rt : Runtime.

Lemma raise_for_status_ok (response : Response) (tr : trace) :
  is_error_status (status_code response) = false ->
  raise_for_status response tr = (Return tt, tr).
Proof.
  intros E. unfold raise_for_status. unfold is_error_status in E.
  destruct (400 <=? status_code response)%Z eqn:E1;
    destruct (status_code response <? 500)%Z eqn:E2;
    destruct (500 <=? status_code response)%Z eqn:E3;
    destruct (status_code response <? 600)%Z eqn:E4;
    cbn [andb] in *; try discriminate; try reflexivity; lia.
Qed.

(** The common start of a live fetch: the call is recorded, the
    request is made and answered with a status that is not an error;
    what remains is the decoding of the body. *)
Ltac start_fetch K R E :=
  unfold fetch_headlines;
  unfold bind at 1; unfold emit at 1; rewrite (truthy_key _ K);
  unfold news_reply in R; unfold try_except, bind, emit, lift, fetch_events;
  rewrite R, <- app_assoc; cbn [ret app];
  rewrite (raise_for_status_ok _ _ E).

(** A value that is not a dict stops the loop with an
    [AttributeError]; the first such value does. *)
Lemma for_article_in_stray (articles : list value) :
  forallb is_object articles = false ->
  exists v, In v articles /\ is_object v = false
    /\ forall headlines tr,
         for_article_in articles headlines tr
         = (Raise (OtherError (py "AttributeError") (no_get_message v)), tr).
Proof.
  induction articles as [|article rest IH]; intros H; [discriminate|].
  simpl in H. destruct (is_object article) eqn:O.
  - destruct (IH H) as (v & I & Ov & F). exists v. repeat split; [now right | exact Ov |].
    intros headlines tr. destruct article; try discriminate.
    now rewrite for_article_in_object.
  - exists article. repeat split; [now left | exact O |].
    intros headlines tr. destruct article; try discriminate; reflexivity.
Qed.

(** The loop returns only when every article is an object. *)
Lemma for_article_in_returns (articles headlines result : list value) (tr tr' : trace) :
  for_article_in articles headlines tr = (Return result, tr') ->
  forallb is_object articles = true.
Proof.
  intros H. destruct (forallb is_object articles) eqn:O; [reflexivity|].
  destruct (for_article_in_stray articles O) as (v & _ & _ & F).
  rewrite F in H. discriminate.
Qed.

Lemma bind_returns {A B} (m : M A) (k : A -> M B) (tr tr' : trace) (b : B) :
  bind m k tr = (Return b, tr') ->
  exists a tr1, m tr = (Return a, tr1) /\ k a tr1 = (Return b, tr').
Proof.
  unfold bind. destruct (m tr) as [[a|e] tr1]; [|discriminate].
  intros H. now exists a, tr1.
Qed.

Lemma slice_iterate_bound (found articles : value) (items : list value)
      (n : nat) (tr tr1 tr2 : trace) :
  slice_to found n tr = (Return articles, tr1) ->
  iterate articles tr1 = (Return items, tr2) ->
  length items <= n.
Proof.
  intros S I. destruct found; try discriminate; injection S as <- <-;
    injection I as <- _; rewrite ?length_map; apply firstn_le_length.
Qed.

(** What a returned list of headlines is made of *)
Lemma fetch_headlines_returns (tr tr' : trace) (headlines : list value) :
  fetch_headlines rt tr = (Return headlines, tr') ->
  headlines = SAMPLE_HEADLINES
  \/ exists items, length items <= 15 /\ forallb is_object items = true
       /\ headlines = map headline_of (filter qualifies items).
Proof.
  unfold fetch_headlines. intros H.
  apply bind_returns in H as ([] & tr0 & _ & H).
  destruct (negb (truthy (PyStr (NEWS_API_KEY rt)))).
  - left. now injection H as <- _.
  - right. unfold try_except in H.
    match type of H with
    | (let (_, _) := ?body tr0 in _) = _ =>
        destruct (body tr0) as [[hs|e] tr1] eqn:B; [|discriminate H]
    end.
    injection H as -> ->.
    apply bind_returns in B as ([] & t1 & _ & B).
    apply bind_returns in B as (response & t2 & _ & B).
    apply bind_returns in B as ([] & t3 & _ & B).
    apply bind_returns in B as (data & t4 & _ & B).
    apply bind_returns in B as (found & t5 & _ & B).
    apply bind_returns in B as (articles & t6 & S & B).
    apply bind_returns in B as (items & t7 & I & B).
    exists items. split; [exact (slice_iterate_bound _ _ _ _ _ _ _ S I)|].
    pose proof (for_article_in_returns _ _ _ _ _ B) as O. split; [exact O|].
    rewrite (for_article_in_objects items [] t7 O) in B. now injection B as <- _.
Qed.

Lemma headline_of_is_headline (article : value) :
  qualifies article = true -> is_headline (headline_of article) = true.
Proof.
  unfold qualifies, headline_of, is_headline. intros Q.
  apply andb_true_iff in Q as [-> ->]. reflexivity.
Qed.

(** Every way the Fetcher can end *)
Lemma fetch_headlines_outcome (tr : trace) :
  (exists headlines, fst (fetch_headlines rt tr) = Return headlines)
  \/ (exists message,
        fst (fetch_headlines rt tr)
        = Raise (HTTPException 500 (FETCH_FAILED ++ message))).
Proof.
  destruct (fetch_headlines rt tr) as [r tr'] eqn:F. cbn [fst].
  revert F. unfold fetch_headlines. unfold bind at 1. unfold emit at 1.
  destruct (negb (truthy (PyStr (NEWS_API_KEY rt)))).
  - intros F. injection F as <- _. left. now eexists.
  - unfold try_except.
    match goal with
    | |- context [let (_, _) := ?body ?t in _] => destruct (body t) as [[hs|e] tr1]
    end; intros F; injection F as <- _.
    + left. now exists hs.
    + right. now exists (exn_str e).
Qed.

(** X3.  The Fetcher never lets an exception of its own escape: it
    either returns a list, or raises an [HTTPException] of status 500
    whose detail starts with "Failed to fetch headlines: ". *)
Theorem fetch_headlines_returns_or_500 (tr : trace) :
  (exists headlines, fst (fetch_headlines rt tr) = Return headlines)
  \/ (exists message,
        fst (fetch_headlines rt tr)
        = Raise (HTTPException 500 (FETCH_FAILED ++ message))).
Proof. exact (fetch_headlines_outcome tr). Qed.

(** X4.  Whenever the Fetcher returns, it returns at most fifteen
    headlines. *)
Theorem fetch_headlines_at_most_15 (tr tr' : trace) (headlines : list value) :
  fetch_headlines rt tr = (Return headlines, tr') ->
  length headlines <= 15.
Proof.
  intros H. destruct (fetch_headlines_returns _ _ _ H) as [->|(items & L & _ & ->)].
  - simpl. lia.
  - rewrite length_map. etransitivity; [apply filter_length_le | exact L].
Qed.

(** X5.  Every headline the Fetcher returns is a dict with exactly the
    keys [title], [description] and [url], whose title and url are
    non-empty (true in Python's sense). *)
Theorem fetch_headlines_well_formed (tr tr' : trace) (headlines : list value) :
  fetch_headlines rt tr = (Return headlines, tr') ->
  forallb is_headline headlines = true.
Proof.
  intros H. destruct (fetch_headlines_returns _ _ _ H) as [->|(items & _ & _ & ->)].
  - reflexivity.
  - apply forallb_forall. intros h I. apply in_map_iff in I as (a & <- & I).
    apply filter_In in I as [_ Q]. now apply headline_of_is_headline.
Qed.

(** The events of a live fetch *)
Lemma fetch_headlines_live_events (tr : trace) :
  NEWS_API_KEY rt <> [] ->
  snd (fetch_headlines rt tr)
  = tr ++ [Called "fetch_headlines"; HttpGet NEWS_API_URL (news_params rt) 10]
  /\ dict_lookup match news_params rt with PyDict d => d | _ => [] end (py "pageSize")
     = Some (PyInt 15)
  /\ dict_lookup match news_params rt with PyDict d => d | _ => [] end (py "apiKey")
     = Some (PyStr (NEWS_API_KEY rt)).
Proof.
  intros K. split; [|split; reflexivity].
  destruct (fetch_headlines_trace rt tr) as [T|T]; [|exact T].
  exfalso. revert T. unfold fetch_headlines. unfold bind at 1. unfold emit at 1.
  rewrite (truthy_key _ K). intros T.
  rewrite try_emit_silent in T.
  - apply (f_equal (@length event)) in T. rewrite !length_app in T. simpl in T. lia.
  - apply silent_bind; [apply silent_lift | intros response].
    apply silent_bind; [apply silent_raise_for_status | intros _].
    apply silent_bind; [apply silent_lift | intros data].
    apply silent_bind; [apply silent_get | intros found].
    apply silent_bind; [apply silent_slice_to | intros articles].
    apply silent_bind; [apply silent_iterate | intros items].
    apply silent_for_article_in.
  - intros e. apply silent_raise.
Qed.

(** X6.  With a credential configured the Fetcher makes exactly one
    outbound request, to the news URL with the fixed query and a
    timeout of 10, whether it then returns or fails; it never
    retries. *)
Theorem fetch_headlines_one_request (tr : trace) :
  NEWS_API_KEY rt <> [] ->
  snd (fetch_headlines rt tr)
  = tr ++ [Called "fetch_headlines"; HttpGet NEWS_API_URL (news_params rt) 10]
  /\ dict_lookup match news_params rt with PyDict d => d | _ => [] end (py "pageSize")
     = Some (PyInt 15)
  /\ dict_lookup match news_params rt with PyDict d => d | _ => [] end (py "apiKey")
     = Some (PyStr (NEWS_API_KEY rt)).
Proof. exact (fetch_headlines_live_events tr). Qed.

(** X7.  A response body that is an object without an [articles] key
    is not an error: the Fetcher returns the empty list and
    [POST /analyze] answers 200 with an empty array. *)
Theorem fetch_headlines_missing_articles
        (tr : trace) (response : Response) (d : list (str * value)) :
  NEWS_API_KEY rt <> [] ->
  news_reply rt = inr response ->
  is_error_status (status_code response) = false ->
  json_loads rt (text response) = inr (PyDict d) ->
  dict_lookup d (py "articles") = None ->
  fetch_headlines rt tr = (Return [], tr ++ fetch_events rt)
  /\ POST_analyze rt tr = ({| status := 200; body := PyList [] |}, tr ++ fetch_events rt).
Proof.
  intros K R E J A.
  assert (F : fetch_headlines rt tr = (Return [], tr ++ fetch_events rt)).
  { start_fetch K R E. rewrite J. cbn [get ret]. now rewrite A. }
  split; [exact F|].
  unfold POST_analyze, serve. now rewrite (analyze_no_headlines rt tr _ F).
Qed.

(** The loop stops at the first value that is not a dict, with the
    [AttributeError] of that value. *)
Lemma for_article_in_first_stray (before after : list value) (v : value)
      (headlines : list value) (tr : trace) :
  forallb is_object before = true ->
  is_object v = false ->
  for_article_in (before ++ v :: after) headlines tr
  = (Raise (OtherError (py "AttributeError") (no_get_message v)), tr).
Proof.
  intros B O. revert headlines.
  induction before as [|article rest IH]; intros headlines.
  - destruct v; try discriminate; reflexivity.
  - simpl in B. apply andb_true_iff in B as [Oa B].
    destruct article; try discriminate.
    rewrite <- app_comm_cons, for_article_in_object. now apply IH.
Qed.

(** X8.  An entry that is not an object among the first fifteen
    articles fails the whole fetch: when [v] is the first such entry
    (the entries [before] it are all objects), the Fetcher raises the
    500 that carries the [AttributeError] of [v] and returns no partial
    list, whatever the articles before and after it are. *)
Theorem fetch_headlines_stray_entry
        (tr : trace) (response : Response) (d : list (str * value))
        (articles before after : list value) (v : value) :
  NEWS_API_KEY rt <> [] ->
  news_reply rt = inr response ->
  is_error_status (status_code response) = false ->
  json_loads rt (text response) = inr (PyDict d) ->
  dict_lookup d (py "articles") = Some (PyList articles) ->
  firstn 15 articles = before ++ v :: after ->
  forallb is_object before = true ->
  is_object v = false ->
  fetch_headlines rt tr
  = (Raise (HTTPException 500
              (py "Failed to fetch headlines: " ++ no_get_message v)),
     tr ++ fetch_events rt).
Proof.
  intros K R E J A S B O.
  start_fetch K R E. rewrite J. cbn [get ret]. rewrite A.
  cbn [slice_to iterate ret]. rewrite S.
  now rewrite (for_article_in_first_stray before after v [] _ B O).
Qed.

(** X9.  A body that the decoder rejects fails the fetch with a 500
    whose detail carries the decoder's message. *)
Theorem fetch_headlines_undecodable_body
        (tr : trace) (response : Response) (e : exn) :
  NEWS_API_KEY rt <> [] ->
  news_reply rt = inr response ->
  is_error_status (status_code response) = false ->
  json_loads rt (text response) = inl e ->
  fetch_headlines rt tr
  = (Raise (HTTPException 500 (FETCH_FAILED ++ exn_str e)), tr ++ fetch_events rt).
Proof.
  intros K R E J. start_fetch K R E. now rewrite J.
Qed.

(** X10.  A body that decodes to anything but an object (an array, a
    string, a number, null) fails the fetch with a 500 that reports the
    missing [get] attribute of that value. *)
Theorem fetch_headlines_body_not_object
        (tr : trace) (response : Response) (data : value) :
  NEWS_API_KEY rt <> [] ->
  news_reply rt = inr response ->
  is_error_status (status_code response) = false ->
  json_loads rt (text response) = inr data ->
  is_object data = false ->
  fetch_headlines rt tr
  = (Raise (HTTPException 500 (FETCH_FAILED ++ no_get_message data)),
     tr ++ fetch_events rt).
Proof.
  intros K R E J O. start_fetch K R E. rewrite J.
  destruct data; try discriminate; reflexivity.
Qed.

End Fetcher.

(** ** The Analyzer *)

Section Analyzer.

Variable rt : Runtime.

(** The common start of a live analysis: the call is recorded and the
    request is sent. *)
Ltac start_analysis K :=
  unfold analyze_with_claude;
  unfold bind at 1; unfold emit at 1; rewrite (truthy_key _ K);
  unfold analyze_events, request_for;
  unfold try_except, bind, emit, lift;
  rewrite <- app_assoc; cbn [app].

Lemma analyze_with_claude_call_failed (headlines : list value) (tr : trace) (e : exn) :
  api_key rt <> [] ->
  messages_create rt (request_for rt headlines) = inl e ->
  analyze_with_claude rt headlines tr
  = (Raise (HTTPException 500
              (match e with
               | JSONDecodeError _ _ _ => PARSE_FAILED
               | _ => ANALYSIS_FAILED
               end ++ exn_str e)),
     tr ++ analyze_events rt headlines).
Proof.
  intros K R. unfold request_for in R. start_analysis K. rewrite R.
  destruct e; reflexivity.
Qed.

Lemma analyze_with_claude_no_block (headlines : list value) (tr : trace)
      (message : Message) :
  api_key rt <> [] ->
  messages_create rt (request_for rt headlines) = inr message ->
  content message = [] ->
  analyze_with_claude rt headlines tr
  = (Raise (HTTPException 500 (ANALYSIS_FAILED ++ py "list index out of range")),
     tr ++ analyze_events rt headlines).
Proof.
  intros K R C. unfold request_for in R. start_analysis K. rewrite R.
  cbn [ret]. unfold index. now rewrite C.
Qed.

Lemma after_parse_cases (loaded : exn + value) :
  (exists v, after_parse loaded = Return v /\ at_most_five v = true)
  \/ (exists m, after_parse loaded = Raise (HTTPException 500 (PARSE_FAILED ++ m)))
  \/ (exists m, after_parse loaded = Raise (HTTPException 500 (ANALYSIS_FAILED ++ m))).
Proof.
  assert (B : forall A (l : list A), (length (firstn 5 l) <=? 5) = true).
  { intros A l. apply Nat.leb_le, firstn_le_length. }
  destruct loaded as [[]|[]]; cbn [after_parse];
    try (right; right; eexists; reflexivity);
    try (right; left; eexists; reflexivity);
    left; eexists; (split; [reflexivity|]); cbn [at_most_five]; try apply B; reflexivity.
Qed.

(** Every way a live analysis can end *)
Lemma analyze_with_claude_live (headlines : list value) (tr : trace) :
  api_key rt <> [] ->
  exists r,
    analyze_with_claude rt headlines tr = (r, tr ++ analyze_events rt headlines)
    /\ ((exists v, r = Return v /\ at_most_five v = true)
        \/ (exists m, r = Raise (HTTPException 500 (PARSE_FAILED ++ m)))
        \/ (exists m, r = Raise (HTTPException 500 (ANALYSIS_FAILED ++ m)))).
Proof.
  intros K. destruct (reply_text rt headlines) as [t|] eqn:R.
  - eexists. split; [exact (analyze_with_claude_run rt headlines tr t K R)|].
    apply after_parse_cases.
  - unfold reply_text in R.
    destruct (messages_create rt (request_for rt headlines)) as [e|message] eqn:C.
    + eexists. split; [exact (analyze_with_claude_call_failed headlines tr e K C)|].
      destruct e; [right; right | right; left | right; right]; eexists; reflexivity.
    + destruct (content message) as [|[] blocks] eqn:B; try discriminate.
      eexists. split; [exact (analyze_with_claude_no_block headlines tr message K C B)|].
      right; right. eexists; reflexivity.
Qed.

(** Every way an analysis can end, with or without a credential *)
Lemma analyze_with_claude_any (headlines : list value) (tr : trace) :
  exists r,
    analyze_with_claude rt headlines tr = (r, tr ++ analyzer_events rt headlines)
    /\ ((exists v, r = Return v /\ at_most_five v = true)
        \/ (exists m, r = Raise (HTTPException 500 (PARSE_FAILED ++ m)))
        \/ (exists m, r = Raise (HTTPException 500 (ANALYSIS_FAILED ++ m)))).
Proof.
  unfold analyzer_events. destruct (api_key rt) as [|c k] eqn:K.
  - exists (Return SAMPLE_INSIGHTS). split; [now apply analyze_with_claude_sample|].
    left. now eexists.
  - apply analyze_with_claude_live. rewrite K. discriminate.
Qed.

(** X12.  Whenever the Analyzer returns, the value is bounded by five:
    a list of at most five items or, for a reply that was a JSON
    string, a string of at most five characters. *)
Theorem analyze_with_claude_at_most_five
        (headlines : list value) (tr tr' : trace) (v : value) :
  analyze_with_claude rt headlines tr = (Return v, tr') ->
  at_most_five v = true.
Proof.
  intros H.
  destruct (analyze_with_claude_any headlines tr) as (r & E & [(v' & -> & B)|[(m & ->)|(m & ->)]]);
    rewrite E in H; try discriminate.
  now injection H as <- _.
Qed.

(** X13.  When the call to the model API raises, the Analyzer fails
    with a 500 whose detail carries the exception's message, under
    "Claude analysis failed: " - or under the parse-failure prefix when
    the exception raised by the call happens to be a
    [JSONDecodeError]. *)
Theorem analyze_with_claude_call_error
        (headlines : list value) (tr : trace) (e : exn) :
  api_key rt <> [] ->
  messages_create rt (request_for rt headlines) = inl e ->
  analyze_with_claude rt headlines tr
  = (Raise (HTTPException 500
              (match e with
               | JSONDecodeError _ _ _ => PARSE_FAILED
               | _ => ANALYSIS_FAILED
               end ++ exn_str e)),
     tr ++ analyze_events rt headlines).
Proof. apply analyze_with_claude_call_failed. Qed.

(** X14.  A reply without any content block fails the analysis with a
    500 that reports the index error. *)
Theorem analyze_with_claude_empty_reply
        (headlines : list value) (tr : trace) (message : Message) :
  api_key rt <> [] ->
  messages_create rt (request_for rt headlines) = inr message ->
  content message = [] ->
  analyze_with_claude rt headlines tr
  = (Raise (HTTPException 500 (ANALYSIS_FAILED ++ py "list index out of range")),
     tr ++ analyze_events rt headlines).
Proof. apply analyze_with_claude_no_block. Qed.

(** X2.  A reply whose [```json] block is never closed (a reply cut
    short) is analyzed like the text after the marker sent raw. *)
Theorem analyze_with_claude_open_block
        (headlines : list value) (tr : trace) (pre rest reply : str) :
  api_key rt <> [] ->
  contains pre FENCE_JSON = false ->
  contains rest FENCE = false ->
  strip reply = pre ++ FENCE_JSON ++ rest ->
  analyze_with_claude (replying rt reply) headlines tr
  = analyze_with_claude (replying rt rest) headlines tr.
Proof.
  intros K CP CR S. apply contains_false in CP. apply contains_false in CR.
  rewrite !analyze_replying by exact K. rewrite S.
  rewrite (extract_open_json_block pre rest CP CR).
  now rewrite (extract_raw _ (strip_free _ _ CR)).
Qed.

End Analyzer.

(** ** The route *)

Section Route.

Variable rt : Runtime.

Lemma fetch_headlines_events (tr : trace) :
  snd (fetch_headlines rt tr) = tr ++ fetcher_events rt.
Proof.
  unfold fetcher_events. destruct (NEWS_API_KEY rt) as [|c k] eqn:K.
  - now rewrite (fetch_headlines_sample rt tr K).
  - apply fetch_headlines_live_events. rewrite K. discriminate.
Qed.

(** After a non-empty fetch the route is the analysis *)
Lemma route_runs_analysis
        (tr tr' : trace) (headlines : list value) :
  fetch_headlines rt tr = (Return headlines, tr') ->
  headlines <> [] ->
  POST_analyze rt tr = serve (analyze_with_claude rt headlines) tr'.
Proof.
  intros F N. unfold POST_analyze, serve.
  destruct (analyze_with_claude_any rt headlines tr')
    as (r & E & [(v & -> & _)|[(m & ->)|(m & ->)]]);
    rewrite E, (analyze_some_headlines rt tr tr' _ headlines _ F N E); reflexivity.
Qed.

(** X17.  When the Fetcher returns a non-empty list, [POST /analyze]
    answers exactly as the Analyzer does on that list: its value with
    status 200, or its failure as a 500 with the Analyzer's own
    detail. *)
Theorem POST_analyze_is_the_analysis
        (tr tr' : trace) (headlines : list value) :
  fetch_headlines rt tr = (Return headlines, tr') ->
  headlines <> [] ->
  POST_analyze rt tr = serve (analyze_with_claude rt headlines) tr'.
Proof. exact (route_runs_analysis tr tr' headlines). Qed.

(** Every way the handler can end *)
Lemma analyze_cases (tr : trace) :
  (exists v, fst (analyze rt tr) = Return v)
  \/ exists prefix m,
       fst (analyze rt tr) = Raise (HTTPException 500 (prefix ++ m))
       /\ (prefix = FETCH_FAILED \/ prefix = PARSE_FAILED \/ prefix = ANALYSIS_FAILED).
Proof.
  destruct (fetch_headlines rt tr) as [[headlines|e] tr'] eqn:F.
  - destruct headlines as [|h hs].
    + left. exists (PyList []). now rewrite (analyze_no_headlines rt tr tr' F).
    + destruct (analyze_with_claude_any rt (h :: hs) tr')
        as (r & E & [(v & -> & _)|[(m & ->)|(m & ->)]]);
        rewrite (analyze_some_headlines rt tr tr' _ (h :: hs) _ F ltac:(discriminate) E);
        cbn [fst].
      * left. now exists v.
      * right. exists PARSE_FAILED, m. auto.
      * right. exists ANALYSIS_FAILED, m. auto.
  - destruct (fetch_headlines_outcome rt tr) as [(hs & H)|(m & H)];
      rewrite F in H; cbn [fst] in H; [discriminate|].
    injection H as ->. right. exists FETCH_FAILED, m.
    rewrite (analyze_fetch_failed rt tr tr' _ _ F). auto.
Qed.

(** X15.  The handler of [POST /analyze] lets nothing escape but an
    [HTTPException] of status 500: it returns a value, or raises an
    [HTTPException] whose status is 500 and which carries a detail;
    no other status and no other exception leaves it. *)
Theorem analyze_returns_or_500 (tr : trace) :
  (exists v, fst (analyze rt tr) = Return v)
  \/ (exists detail, fst (analyze rt tr) = Raise (HTTPException 500 detail)).
Proof.
  destruct (analyze_cases tr) as [(v & H)|(prefix & m & H & _)].
  - left. now exists v.
  - right. now exists (prefix ++ m).
Qed.

(** The events of the route *)
Lemma route_events (tr : trace) :
  snd (POST_analyze rt tr)
  = tr ++ fetcher_events rt ++ events_after_fetch rt (fst (fetch_headlines rt tr)).
Proof.
  pose proof (fetch_headlines_events tr) as T.
  assert (S : snd (POST_analyze rt tr) = snd (analyze rt tr)).
  { unfold POST_analyze, serve. destruct (analyze rt tr) as [[v|[]] t]; reflexivity. }
  rewrite S. clear S.
  destruct (fetch_headlines rt tr) as [[headlines|e] tr'] eqn:F; cbn [fst snd] in *; subst tr'.
  - destruct headlines as [|h hs]; cbn [events_after_fetch].
    + now rewrite (analyze_no_headlines rt tr _ F), app_nil_r.
    + destruct (analyze_with_claude_any rt (h :: hs) (tr ++ fetcher_events rt))
        as (r & E & _).
      rewrite (analyze_some_headlines rt tr _ _ (h :: hs) _ F ltac:(discriminate) E).
      cbn [snd]. now rewrite app_assoc.
  - destruct (fetch_headlines_outcome rt tr) as [(hs & H)|(m & H)];
      rewrite F in H; cbn [fst] in H; [discriminate|].
    injection H as ->.
    now rewrite (analyze_fetch_failed rt tr _ _ _ F), app_nil_r.
Qed.

(** X16.  The trace of [POST /analyze]: the Fetcher's events (one
    outbound request when the news credential is set), followed by the
    Analyzer's events (one model call when the model credential is set)
    exactly when the Fetcher returned a non-empty list.  The model API
    is never called before the news API, never more than once, and
    never after a failed or empty fetch. *)
Theorem POST_analyze_trace (tr : trace) :
  snd (POST_analyze rt tr)
  = tr ++ fetcher_events rt ++ events_after_fetch rt (fst (fetch_headlines rt tr)).
Proof. exact (route_events tr). Qed.

(** Without a news credential the route analyzes the sample *)
Lemma route_sample_headlines (tr : trace) :
  NEWS_API_KEY rt = [] ->
  match api_key rt with
  | [] =>
      POST_analyze rt tr
      = ({| status := 200; body := SAMPLE_INSIGHTS |},
         tr ++ [Called "fetch_headlines"; Called "analyze_with_claude"])
  | _ :: _ =>
      POST_analyze rt tr
      = serve (analyze_with_claude rt SAMPLE_HEADLINES) (tr ++ [Called "fetch_headlines"])
      /\ snd (POST_analyze rt tr)
         = tr ++ [Called "fetch_headlines"; Called "analyze_with_claude";
                  MessagesCreate (request_for rt SAMPLE_HEADLINES)]
  end.
Proof.
  intros K. pose proof (fetch_headlines_sample rt tr K) as F.
  assert (N : SAMPLE_HEADLINES <> []) by discriminate.
  pose proof (route_runs_analysis tr _ SAMPLE_HEADLINES F N) as P.
  destruct (api_key rt) as [|c k] eqn:A.
  - rewrite P. unfold serve.
    rewrite (analyze_with_claude_sample rt SAMPLE_HEADLINES _ A).
    now rewrite <- app_assoc.
  - split; [exact P|]. rewrite route_events, F. cbn [fst events_after_fetch].
    unfold fetcher_events, analyzer_events, analyze_events. now rewrite K, A.
Qed.

(** X18.  Without a news credential the route analyzes the sample
    headlines.  Without a model credential either, it answers 200 with
    the sample insight and touches no network; with one, it makes one
    call to the model API, written out below: the model named in the
    source, 1500 tokens at most, temperature 0.3, and one user message
    whose content is the prompt around the two sample headlines as
    [json.dumps(_, indent=2)] renders them. *)
Theorem POST_analyze_sample_headlines (tr : trace) :
  NEWS_API_KEY rt = [] ->
  match api_key rt with
  | [] =>
      POST_analyze rt tr
      = ({| status := 200;
            body :=
              PyList
                [ PyDict
                    [ (py "headline",
                       PyStr (py "Apple Reports Record Q4 Earnings, Stock Surges"));
                      (py "article_url", PyStr (py "https://example.com/apple-earnings"));
                      (py "stocks", PyList [PyStr (py "AAPL")]);
                      (py "recommendation", PyStr (py "Buy AAPL"));
                      (py "rationale", PyStr (py
                         "Strong earnings beat suggests continued growth momentum and potential upside."));
                      (py "summary", PyStr (py
                         "Apple Inc. announced record-breaking quarterly earnings, beating analyst expectations by 15%. The company's iPhone sales and services revenue both exceeded forecasts.")) ] ] |},
         tr ++ [Called "fetch_headlines"; Called "analyze_with_claude"])
  | _ :: _ =>
      snd (POST_analyze rt tr)
      = tr ++ [ Called "fetch_headlines"; Called "analyze_with_claude";
                MessagesCreate
                  {| model := py "claude-sonnet-4-20250514";
                     max_tokens := 1500;
                     temperature := PyFloat (py "0.3");
                     messages :=
                       PyList
                         [ PyDict
                             [ (py "role", PyStr (py "user"));
                               (py "content",
                                PyStr
                                  (PROMPT_BEFORE
                                   ++ json_dumps rt
                                        (PyList
                                           [ PyDict
                                               [ (py "title",
                                                  PyStr (py "Apple Reports Record Q4 Earnings, Stock Surges"));
                                                 (py "description", PyStr (py
                                                    "Apple Inc. announced record-breaking quarterly earnings, beating analyst expectations by 15%."));
                                                 (py "url",
                                                  PyStr (py "https://example.com/apple-earnings")) ];
                                             PyDict
                                               [ (py "title",
                                                  PyStr (py "Federal Reserve Hints at Rate Cuts in 2024"));
                                                 (py "description", PyStr (py
                                                    "The Fed signals potential interest rate reductions, sparking market optimism."));
                                                 (py "url",
                                                  PyStr (py "https://example.com/fed-rates")) ] ])
                                        2
                                   ++ PROMPT_AFTER)) ] ] |} ]
  end.
Proof.
  intros K. pose proof (route_sample_headlines tr K) as H.
  destruct (api_key rt) as [|c k].
  - exact H.
  - exact (proj2 H).
Qed.

End Route.

(** ** Instances *)

Lemma analyze_with_claude_open_block_witness :
  analyze_with_claude (replying model_down reply_cut_short) one_headline []
  = analyze_with_claude
      (replying model_down ([NEWLINE] ++ pyq "[{'headline': 'H'}]")) one_headline [].
Proof.
  apply (analyze_with_claude_open_block model_down one_headline []
           (py "Here you go:" ++ [NEWLINE]) ([NEWLINE] ++ pyq "[{'headline': 'H'}]")
           reply_cut_short).
  - discriminate.
  - reflexivity.
  - reflexivity.
  - reflexivity.
Defined.

Lemma fetch_headlines_at_most_15_witness :
  length (repeat plain_headline 15) <= 15.
Proof.
  apply (fetch_headlines_at_most_15 (serving news_body_seventeen) []
           (fetch_events (serving news_body_seventeen)) (repeat plain_headline 15)).
  vm_compute. reflexivity.
Defined.

Lemma fetch_headlines_well_formed_witness :
  forallb is_headline (map headline_of (filter qualifies news_articles)) = true.
Proof.
  apply (fetch_headlines_well_formed (serving news_body) []
           (fetch_events (serving news_body))
           (map headline_of (filter qualifies news_articles))).
  vm_compute. reflexivity.
Defined.

Lemma fetch_headlines_one_request_witness :
  snd (fetch_headlines model_down [])
  = [] ++ [Called "fetch_headlines"; HttpGet NEWS_API_URL (news_params model_down) 10].
Proof.
  apply (fetch_headlines_one_request model_down []). discriminate.
Defined.

Lemma fetch_headlines_missing_articles_witness :
  POST_analyze (serving news_body_without_articles) []
  = ({| status := 200; body := PyList [] |},
     [] ++ fetch_events (serving news_body_without_articles)).
Proof.
  apply (fetch_headlines_missing_articles (serving news_body_without_articles) []
           (news_response 200 (py "OK") news_body_without_articles)
           [(py "status", PyStr (py "ok")); (py "totalResults", PyInt 0)]).
  - discriminate.
  - reflexivity.
  - reflexivity.
  - vm_compute. reflexivity.
  - reflexivity.
Defined.

Lemma fetch_headlines_stray_entry_witness :
  fetch_headlines (serving news_body_with_stray_entry) []
  = (Raise (HTTPException 500
              (py "Failed to fetch headlines: 'str' object has no attribute 'get'")),
     [] ++ fetch_events (serving news_body_with_stray_entry)).
Proof.
  apply (fetch_headlines_stray_entry (serving news_body_with_stray_entry) []
           (news_response 200 (py "OK") news_body_with_stray_entry)
           [(py "articles",
             PyList [ PyDict [(py "title", PyStr (py "A")); (py "url", PyStr (py "http://a"))];
                      PyStr (py "oops");
                      PyDict [(py "title", PyStr (py "B")); (py "url", PyStr (py "http://b"))] ])]
           [ PyDict [(py "title", PyStr (py "A")); (py "url", PyStr (py "http://a"))];
             PyStr (py "oops");
             PyDict [(py "title", PyStr (py "B")); (py "url", PyStr (py "http://b"))] ]
           [ PyDict [(py "title", PyStr (py "A")); (py "url", PyStr (py "http://a"))] ]
           [ PyDict [(py "title", PyStr (py "B")); (py "url", PyStr (py "http://b"))] ]
           (PyStr (py "oops"))).
  - discriminate.
  - reflexivity.
  - reflexivity.
  - vm_compute. reflexivity.
  - reflexivity.
  - reflexivity.
  - reflexivity.
  - reflexivity.
Defined.

Lemma fetch_headlines_undecodable_body_witness :
  fetch_headlines (serving news_body_html) []
  = (Raise (HTTPException 500
              (FETCH_FAILED
               ++ exn_str (JSONDecodeError (py "Expecting value") news_body_html 0))),
     [] ++ fetch_events (serving news_body_html)).
Proof.
  apply (fetch_headlines_undecodable_body (serving news_body_html) []
           (news_response 200 (py "OK") news_body_html)).
  - discriminate.
  - reflexivity.
  - reflexivity.
  - vm_compute. reflexivity.
Defined.

Lemma fetch_headlines_body_not_object_witness :
  fetch_headlines (serving news_body_array) []
  = (Raise (HTTPException 500
              (FETCH_FAILED
               ++ no_get_message
                    (PyList [PyDict [(py "title", PyStr (py "A"));
                                     (py "url", PyStr (py "http://a"))]]))),
     [] ++ fetch_events (serving news_body_array)).
Proof.
  apply (fetch_headlines_body_not_object (serving news_body_array) []
           (news_response 200 (py "OK") news_body_array)).
  - discriminate.
  - reflexivity.
  - reflexivity.
  - vm_compute. reflexivity.
  - reflexivity.
Defined.

Lemma analyze_with_claude_at_most_five_witness :
  at_most_five (PyList (firstn 5 seven_objects)) = true.
Proof.
  apply (analyze_with_claude_at_most_five (serving news_body) one_headline []
           (analyze_events (serving news_body) one_headline)).
  vm_compute. reflexivity.
Defined.

Lemma analyze_with_claude_call_error_witness :
  analyze_with_claude model_down one_headline []
  = (Raise (HTTPException 500 (ANALYSIS_FAILED ++ py "Connection refused")),
     [] ++ analyze_events model_down one_headline).
Proof.
  apply (analyze_with_claude_call_error model_down one_headline [] unreachable).
  - discriminate.
  - reflexivity.
Defined.

Lemma analyze_with_claude_empty_reply_witness :
  analyze_with_claude model_mute one_headline []
  = (Raise (HTTPException 500 (ANALYSIS_FAILED ++ py "list index out of range")),
     [] ++ analyze_events model_mute one_headline).
Proof.
  apply (analyze_with_claude_empty_reply model_mute one_headline []
           {| content := [] |}).
  - discriminate.
  - reflexivity.
  - reflexivity.
Defined.

Lemma POST_analyze_is_the_analysis_witness :
  POST_analyze (serving news_body) []
  = serve (analyze_with_claude (serving news_body)
             (map headline_of (filter qualifies news_articles)))
      (fetch_events (serving news_body)).
Proof.
  apply (POST_analyze_is_the_analysis (serving news_body) []
           (fetch_events (serving news_body))
           (map headline_of (filter qualifies news_articles))).
  - vm_compute. reflexivity.
  - discriminate.
Defined.

Lemma POST_analyze_sample_headlines_witness :
  snd (POST_analyze sample_news [])
  = [] ++ [ Called "fetch_headlines"; Called "analyze_with_claude";
            MessagesCreate
              (create_request
                 (PROMPT_BEFORE ++ sample_headlines_json ++ PROMPT_AFTER)) ].
Proof.
  apply (POST_analyze_sample_headlines sample_news []). reflexivity.
Defined.
